(** * DOMQL linter: a shallow embedding of [index.js]

    The linter walks the Babel syntax tree of each source file, looks at every
    object literal, decides whether it is a DOMQL component and, if so, checks
    the fields of its [props], [style] and [on] sub-objects.  Findings are
    pushed on the two arrays [this.errors] and [this.warnings] of the linter
    object.

    The embedding keeps the shape of the class: the linter object is a record
    that every method takes and returns; [Array.prototype.push] appends at the
    end of a list; [forEach] and [for ... of] are left folds; the sets built by
    [new Set([...])] are the lists of their elements with [has] as membership
    test.  Console output is not modelled. *)

From Stdlib Require Import String Ascii List Bool Arith Lia DecimalString.
Import ListNotations.
Open Scope string_scope.
Open Scope list_scope.
Set Warnings "-register-all".

(** ** Syntax trees, as far as the linter looks at them *)

Module Position.
(** Babel counts lines from 1 and columns from 0. *)
Record t := mk { line : nat; column : nat }.
End Position.

Module SourceLocation.
(** [node.loc]; the linter reads [loc?.start?.line] and [loc?.start?.column]
    only, so [start] may be missing. *)
Record t := mk { start : option Position.t }.
End SourceLocation.

Definition loc_at (l c : nat) : option SourceLocation.t :=
  Some (SourceLocation.mk (Some (Position.mk l c))).

(** A node of the tree.  [Identifier] is the only kind of node that can stand
    as a key and has a [name] field; a string-literal key carries its text in
    [value].  [OtherNode ty children] is a node of any other kind [ty], with
    its child nodes in the order the traversal visits them.  The members of an
    object literal are properties [key: value] (shorthand or not, computed
    [[key]: value] or not), methods [key(...) {...}] and spread elements
    [...argument]; a spread element has no [key], a method has no [value]. *)
Inductive Node : Type :=
| Identifier (name : string)
| StringLiteral (value : string)
| ObjectExpression (properties : list Member) (loc : option SourceLocation.t)
| OtherNode (type : string) (children : list Node)
with Member : Type :=
| ObjectProperty (key : Node) (computed : bool) (value : Node)
                 (loc : option SourceLocation.t)
| ObjectMethod (key : Node) (computed : bool) (rest : list Node)
               (loc : option SourceLocation.t)
| SpreadElement (argument : Node) (loc : option SourceLocation.t).

(** [prop.key] *)
Definition member_key (prop : Member) : option Node :=
  match prop with
  | ObjectProperty k _ _ _ | ObjectMethod k _ _ _ => Some k
  | SpreadElement _ _ => None
  end.

(** [prop.value] *)
Definition member_value (prop : Member) : option Node :=
  match prop with
  | ObjectProperty _ _ v _ => Some v
  | ObjectMethod _ _ _ _ | SpreadElement _ _ => None
  end.

(** [prop.loc] *)
Definition member_loc (prop : Member) : option SourceLocation.t :=
  match prop with
  | ObjectProperty _ _ _ l | ObjectMethod _ _ _ l | SpreadElement _ l => l
  end.

(** [key.name]: undefined on every node but an identifier. *)
Definition node_name (n : Node) : option string :=
  match n with
  | Identifier name => Some name
  | _ => None
  end.

(** ** Diagnostics and the linter object *)

Inductive Severity := error | warning.

Record Diagnostic := mkDiagnostic {
  file : string;
  line : nat;
  column : nat;
  message : string;
  severity : Severity;
  suggestion : option string
}.

Record Options := mkOptions {
  files : list string;
  ignore : list string
}.

Record DOMQLLinter := mkLinter {
  options : Options;
  errors : list Diagnostic;
  warnings : list Diagnostic
}.

(** [constructor(options = {})]: a pattern list that is not given takes its
    default; both arrays start empty. *)
Definition constructor (files_opt ignore_opt : option (list string)) : DOMQLLinter :=
  {| options :=
       {| files := match files_opt with
                   | Some fs => fs
                   | None => ["**/*.js"; "**/*.jsx"; "**/*.ts"; "**/*.tsx"]
                   end;
          ignore := match ignore_opt with
                    | Some ig => ig
                    | None => ["node_modules/**"; "dist/**"]
                    end |};
     errors := [];
     warnings := [] |}.

(** [this.errors.push(d)] and [this.warnings.push(d)] *)
Definition push_error (this : DOMQLLinter) (d : Diagnostic) : DOMQLLinter :=
  {| options := options this; errors := errors this ++ [d]; warnings := warnings this |}.

Definition push_warning (this : DOMQLLinter) (d : Diagnostic) : DOMQLLinter :=
  {| options := options this; errors := errors this; warnings := warnings this ++ [d] |}.

(** ** Classification tables *)

(** [set.has(x)] and [array.includes(x)] on strings *)
Definition has (set : list string) (x : string) : bool :=
  existsb (String.eqb x) set.

(** [s.startsWith(p)] *)
Definition startsWith (s p : string) : bool := String.prefix p s.

Definition getStyleProperties : list string :=
  [ "width"; "height"; "margin"; "padding"; "border"; "background"; "color";
    "fontSize"; "fontFamily"; "fontWeight"; "textAlign"; "display"; "position";
    "top"; "left"; "right"; "bottom"; "zIndex"; "opacity"; "visibility";
    "overflow"; "cursor"; "transition"; "transform"; "boxSizing"; "flex";
    "flexDirection"; "justifyContent"; "alignItems"; "gap"; "grid";
    "gridTemplateColumns"; "gridTemplateRows"; "aspectRatio"; "backdropFilter";
    "borderRadius"; "boxShadow"; "textDecoration"; "lineHeight"; "letterSpacing";
    "whiteSpace"; "wordWrap"; "textOverflow"; "verticalAlign"; "float";
    "clear"; "minWidth"; "maxWidth"; "minHeight"; "maxHeight"; "flexBasis";
    "flexGrow"; "flexShrink"; "order"; "alignSelf"; "justifySelf" ].

Definition getHTMLAttributes : list string :=
  [ "id"; "class"; "className"; "data-*"; "aria-*"; "role"; "tabindex";
    "disabled"; "readonly"; "required"; "checked"; "selected"; "value";
    "placeholder"; "title"; "alt"; "src"; "href"; "target"; "rel";
    "type"; "name"; "form"; "for"; "maxlength"; "minlength"; "pattern";
    "autocomplete"; "autofocus"; "multiple"; "size"; "rows"; "cols" ].

Definition getEventHandlers : list string :=
  [ "onClick"; "onMouseEnter"; "onMouseLeave"; "onMouseOver"; "onMouseOut";
    "onMouseDown"; "onMouseUp"; "onKeyDown"; "onKeyUp"; "onKeyPress";
    "onFocus"; "onBlur"; "onChange"; "onInput"; "onSubmit"; "onLoad";
    "onError"; "onResize"; "onScroll"; "onTouchStart"; "onTouchEnd";
    "onTouchMove"; "onTouchCancel" ].

(** The literal array of [validateOnObject]. *)
Definition onExceptions : list string :=
  [ "mouseenter"; "mouseleave"; "click"; "keydown"; "keyup" ].

(** ** Where a warning points *)

(** [loc?.start?.line] and [loc?.start?.column]: a number or undefined. *)
Definition start_line (l : option SourceLocation.t) : option nat :=
  match l with
  | Some sl => option_map Position.line (SourceLocation.start sl)
  | None => None
  end.

Definition start_column (l : option SourceLocation.t) : option nat :=
  match l with
  | Some sl => option_map Position.column (SourceLocation.start sl)
  | None => None
  end.

(** [a || b] on numbers-or-undefined: [a] when it is truthy, that is a number
    other than 0, and [b] otherwise. *)
Definition js_or (a b : option nat) : option nat :=
  match a with
  | Some (S _) => a
  | _ => b
  end.

(** [a || d] with a number [d] at the right end of the chain. *)
Definition js_or_default (a : option nat) (d : nat) : nat :=
  match a with
  | Some (S n) => S n
  | _ => d
  end.

(** [prop.loc?.start?.line || location?.start?.line || 1] *)
Definition warning_line (prop : Member) (location : option SourceLocation.t) : nat :=
  js_or_default (js_or (start_line (member_loc prop)) (start_line location)) 1.

(** [prop.loc?.start?.column || location?.start?.column || 1] *)
Definition warning_column (prop : Member) (location : option SourceLocation.t) : nat :=
  js_or_default (js_or (start_column (member_loc prop)) (start_column location)) 1.

(** ** The three sub-object checks *)

Definition style_in_props_warning (filePath : string) (prop : Member)
    (location : option SourceLocation.t) (propName : string) : Diagnostic :=
  {| file := filePath;
     line := warning_line prop location;
     column := warning_column prop location;
     message := "Style property '" ++ propName ++ "' should be in 'style' object, not 'props'";
     severity := warning;
     suggestion := Some ("Move '" ++ propName ++ "' to the 'style' object")%string |}.

Definition event_in_props_warning (filePath : string) (prop : Member)
    (location : option SourceLocation.t) (propName : string) : Diagnostic :=
  {| file := filePath;
     line := warning_line prop location;
     column := warning_column prop location;
     message := "Event handler '" ++ propName ++ "' should be in 'on' object, not 'props'";
     severity := warning;
     suggestion := Some ("Move '" ++ propName ++ "' to the 'on' object")%string |}.

Definition attribute_in_style_warning (filePath : string) (prop : Member)
    (location : option SourceLocation.t) (propName : string) : Diagnostic :=
  {| file := filePath;
     line := warning_line prop location;
     column := warning_column prop location;
     message := "HTML attribute '" ++ propName ++ "' should be in 'props' object, not 'style'";
     severity := warning;
     suggestion := Some ("Move '" ++ propName ++ "' to the 'props' object")%string |}.

Definition not_a_handler_warning (filePath : string) (prop : Member)
    (location : option SourceLocation.t) (propName : string) : Diagnostic :=
  {| file := filePath;
     line := warning_line prop location;
     column := warning_column prop location;
     message := "'" ++ propName ++ "' doesn't look like an event handler and should probably be in 'props'";
     severity := warning;
     suggestion := Some ("Consider moving '" ++ propName ++ "' to the 'props' object")%string |}.

(** The callback of [propsNode.properties.forEach] in [validatePropsObject].
    The guard [prop.key && prop.key.type === 'Identifier'] is the match on the
    key; the last [if]/[else if] on the two prefixes has empty branches. *)
Definition validatePropsObject_each (filePath : string)
    (location : option SourceLocation.t) (styleProps htmlAttrs eventHandlers : list string)
    (this : DOMQLLinter) (prop : Member) : DOMQLLinter :=
  match member_key prop with
  | Some (Identifier propName) =>
      let this :=
        if has styleProps propName
        then push_warning this (style_in_props_warning filePath prop location propName)
        else this in
      let this :=
        if has eventHandlers propName
        then push_warning this (event_in_props_warning filePath prop location propName)
        else this in
      if startsWith propName "data-" then this
      else if startsWith propName "aria-" then this
      else this
  | _ => this
  end.

Definition validatePropsObject (properties : list Member) (filePath : string)
    (location : option SourceLocation.t) (styleProps htmlAttrs eventHandlers : list string)
    (this : DOMQLLinter) : DOMQLLinter :=
  fold_left (validatePropsObject_each filePath location styleProps htmlAttrs eventHandlers)
            properties this.

Definition validateStyleObject_each (filePath : string)
    (location : option SourceLocation.t) (htmlAttrs : list string)
    (this : DOMQLLinter) (prop : Member) : DOMQLLinter :=
  match member_key prop with
  | Some (Identifier propName) =>
      if has htmlAttrs propName || startsWith propName "data-" || startsWith propName "aria-"
      then push_warning this (attribute_in_style_warning filePath prop location propName)
      else this
  | _ => this
  end.

Definition validateStyleObject (properties : list Member) (filePath : string)
    (location : option SourceLocation.t) (htmlAttrs : list string)
    (this : DOMQLLinter) : DOMQLLinter :=
  fold_left (validateStyleObject_each filePath location htmlAttrs) properties this.

Definition validateOnObject_each (filePath : string)
    (location : option SourceLocation.t)
    (this : DOMQLLinter) (prop : Member) : DOMQLLinter :=
  match member_key prop with
  | Some (Identifier propName) =>
      if negb (startsWith propName "on") && negb (has onExceptions propName)
      then push_warning this (not_a_handler_warning filePath prop location propName)
      else this
  | _ => this
  end.

Definition validateOnObject (properties : list Member) (filePath : string)
    (location : option SourceLocation.t)
    (this : DOMQLLinter) : DOMQLLinter :=
  fold_left (validateOnObject_each filePath location) properties this.

(** ** Component detection and the component check *)

(** [prop => prop.key && prop.key.name === name] *)
Definition key_named (name : string) (prop : Member) : bool :=
  match member_key prop with
  | Some k =>
      match node_name k with
      | Some n => String.eqb n name
      | None => false
      end
  | None => false
  end.

Definition isDOMQLComponent (properties : list Member) : bool :=
  let hasExtend := existsb (key_named "extend") properties in
  let hasProps := existsb (key_named "props") properties in
  let hasStyle := existsb (key_named "style") properties in
  let hasOn := existsb (key_named "on") properties in
  hasExtend || hasProps || hasStyle || hasOn.

(** [node.properties.find(prop => prop.key && prop.key.name === name)] followed
    by the test [n && n.value && n.value.type === 'ObjectExpression']: the
    properties of the sub-object, when the first member keyed [name] has an
    object literal as its value. *)
Definition sub_object (name : string) (properties : list Member) : option (list Member) :=
  match find (key_named name) properties with
  | Some found =>
      match member_value found with
      | Some (ObjectExpression ps _) => Some ps
      | _ => None
      end
  | None => None
  end.

Definition validateComponentStructure (properties : list Member) (filePath : string)
    (location : option SourceLocation.t) (this : DOMQLLinter) : DOMQLLinter :=
  let styleProps := getStyleProperties in
  let htmlAttrs := getHTMLAttributes in
  let eventHandlers := getEventHandlers in
  let this :=
    match sub_object "props" properties with
    | Some ps => validatePropsObject ps filePath location styleProps htmlAttrs eventHandlers this
    | None => this
    end in
  let this :=
    match sub_object "style" properties with
    | Some ps => validateStyleObject ps filePath location htmlAttrs this
    | None => this
    end in
  match sub_object "on" properties with
  | Some ps => validateOnObject ps filePath location this
  | None => this
  end.

(** A visited object literal: [path.node.properties] and [path.node.loc]. *)
Definition ObjectPath : Type := (list Member * option SourceLocation.t)%type.

Definition checkObjectExpression (filePath : string) (this : DOMQLLinter)
    (path : ObjectPath) : DOMQLLinter :=
  let '(properties, location) := path in
  if isDOMQLComponent properties
  then validateComponentStructure properties filePath location this
  else this.

(** ** Traversal *)

(** The object literals of a tree in the order [traverse] enters them: a node
    before its children, children from left to right; within a member the key
    comes before the value. *)
Fixpoint object_expressions (n : Node) : list ObjectPath :=
  match n with
  | Identifier _ | StringLiteral _ => []
  | ObjectExpression properties loc =>
      (properties, loc) ::
      (fix members (ms : list Member) : list ObjectPath :=
         match ms with
         | [] => []
         | m :: ms' => object_expressions_member m ++ members ms'
         end) properties
  | OtherNode _ children =>
      (fix nodes (ns : list Node) : list ObjectPath :=
         match ns with
         | [] => []
         | c :: ns' => object_expressions c ++ nodes ns'
         end) children
  end
with object_expressions_member (m : Member) : list ObjectPath :=
  match m with
  | ObjectProperty k _ v _ => object_expressions k ++ object_expressions v
  | ObjectMethod k _ rest _ =>
      object_expressions k ++
      (fix nodes (ns : list Node) : list ObjectPath :=
         match ns with
         | [] => []
         | c :: ns' => object_expressions c ++ nodes ns'
         end) rest
  | SpreadElement a _ => object_expressions a
  end.

(** [traverse(ast, { ObjectExpression: visitor })] *)
Definition traverse (ast : Node) (visitor : DOMQLLinter -> ObjectPath -> DOMQLLinter)
    (this : DOMQLLinter) : DOMQLLinter :=
  fold_left visitor (object_expressions ast) this.

(** ** Files and the run *)

(** How the [try] block of [lintFile] ends for a file.  [Throws m]: one of
    its statements threw an exception with the message [m] before the visitor
    was called, and the [catch] runs: [fs.readFileSync], [parse], or
    [traverse] while it prepares the tree (it rejects, for instance, a
    duplicate declaration that the parser let pass).  [Parsed ast]: the file
    was read and parsed into [ast] and the traversal runs to its end.  The
    visitor guards every field it reads ([prop.key && ...], [?.]) and throws
    nothing; an exception of the traversal library after a first call of the
    visitor is not modelled. *)
Inductive ParseOutcome :=
| Throws (error_message : string)
| Parsed (ast : Node).

Section Run.

(** The collaborators of the linter: pattern expansion, and for every file
    the way the [try] block of [lintFile] ends (reader, parser and the
    traversal library). *)
Variable glob : list string -> list string -> list string.
Variable read_and_parse : string -> ParseOutcome.

Definition parse_error (filePath error_message : string) : Diagnostic :=
  {| file := filePath;
     line := 1;
     column := 1;
     message := "Parse error: " ++ error_message;
     severity := error;
     suggestion := None |}.

Definition lintFile (this : DOMQLLinter) (filePath : string) : DOMQLLinter :=
  match read_and_parse filePath with
  | Parsed ast => traverse ast (checkObjectExpression filePath) this
  | Throws error_message => push_error this (parse_error filePath error_message)
  end.

(** The loop [for (const file of files) this.lintFile(file)]. *)
Definition lintFiles (fileList : list string) (this : DOMQLLinter) : DOMQLLinter :=
  fold_left lintFile fileList this.

(** [lint()]: the linter after the run and the returned flag
    [this.errors.length === 0]. *)
Definition lint (this : DOMQLLinter) : DOMQLLinter * bool :=
  let fileList := glob (files (options this)) (ignore (options this)) in
  let this := lintFiles fileList this in
  (this, Nat.eqb (length (errors this)) 0).

End Run.

(** ** What a run adds to the two arrays

    The definitions of this part do not come from a method of the class: they
    list, as plain values, the diagnostics that the methods above push, so that
    the theorems can say in which order the arrays are filled. *)

(** The linter with [es] appended to its errors and [ws] to its warnings. *)
Definition add_diagnostics (this : DOMQLLinter) (es ws : list Diagnostic) : DOMQLLinter :=
  {| options := options this;
     errors := errors this ++ es;
     warnings := warnings this ++ ws |}.

(** [later] holds what [earlier] held, in the same places, and possibly more
    at the end. *)
Definition extends (earlier later : DOMQLLinter) : Prop :=
  options later = options earlier /\
  (exists es, errors later = errors earlier ++ es) /\
  (exists ws, warnings later = warnings earlier ++ ws).

(** Warnings for one field of a [props] sub-object. *)
Definition props_field_warnings (filePath : string) (location : option SourceLocation.t)
    (prop : Member) : list Diagnostic :=
  match member_key prop with
  | Some (Identifier propName) =>
      (if has getStyleProperties propName
       then [style_in_props_warning filePath prop location propName] else []) ++
      (if has getEventHandlers propName
       then [event_in_props_warning filePath prop location propName] else [])
  | _ => []
  end.

(** Warnings for one field of a [style] sub-object. *)
Definition style_field_warnings (filePath : string) (location : option SourceLocation.t)
    (prop : Member) : list Diagnostic :=
  match member_key prop with
  | Some (Identifier propName) =>
      if has getHTMLAttributes propName || startsWith propName "data-"
         || startsWith propName "aria-"
      then [attribute_in_style_warning filePath prop location propName] else []
  | _ => []
  end.

(** Warnings for one field of an [on] sub-object. *)
Definition on_field_warnings (filePath : string) (location : option SourceLocation.t)
    (prop : Member) : list Diagnostic :=
  match member_key prop with
  | Some (Identifier propName) =>
      if negb (startsWith propName "on") && negb (has onExceptions propName)
      then [not_a_handler_warning filePath prop location propName] else []
  | _ => []
  end.

(** The fields of a sub-object, none when the sub-object is missing. *)
Definition sub_object_fields (name : string) (properties : list Member) : list Member :=
  match sub_object name properties with
  | Some ps => ps
  | None => []
  end.

(** Warnings of one component: [props] first, then [style], then [on]; the
    fields of each in the order they are written. *)
Definition component_warnings (filePath : string) (path : ObjectPath) : list Diagnostic :=
  let '(properties, location) := path in
  flat_map (props_field_warnings filePath location) (sub_object_fields "props" properties) ++
  flat_map (style_field_warnings filePath location) (sub_object_fields "style" properties) ++
  flat_map (on_field_warnings filePath location) (sub_object_fields "on" properties).

(** Warnings of one object literal: those of the component, if it is one. *)
Definition object_warnings (filePath : string) (path : ObjectPath) : list Diagnostic :=
  if isDOMQLComponent (fst path) then component_warnings filePath path else [].

(** Warnings of a syntax tree: its object literals in traversal order. *)
Definition tree_warnings (filePath : string) (ast : Node) : list Diagnostic :=
  flat_map (object_warnings filePath) (object_expressions ast).

Section Discovery.

Variable read_and_parse : string -> ParseOutcome.

Definition file_errors (filePath : string) : list Diagnostic :=
  match read_and_parse filePath with
  | Parsed _ => []
  | Throws error_message => [parse_error filePath error_message]
  end.

Definition file_warnings (filePath : string) : list Diagnostic :=
  match read_and_parse filePath with
  | Parsed ast => tree_warnings filePath ast
  | Throws _ => []
  end.

End Discovery.

(** How many diagnostics of a list carry a given message together with a
    given suggestion. *)
Definition count_warnings (msg sugg : string) (ds : list Diagnostic) : nat :=
  length (filter (fun d => String.eqb (message d) msg &&
                           match suggestion d with
                           | Some s => String.eqb s sugg
                           | None => false
                           end) ds).

(** The diagnostics of severity error are told apart by this test. *)
Definition is_error (d : Diagnostic) : bool :=
  match severity d with
  | error => true
  | warning => false
  end.

(** ** The component detector as the specification words it

    The specification takes the keys with a static identifier or string name
    and leaves computed keys and spread elements out. *)

Definition static_key_name (prop : Member) : option string :=
  match prop with
  | ObjectProperty (Identifier n) false _ _
  | ObjectMethod (Identifier n) false _ _ => Some n
  | ObjectProperty (StringLiteral s) false _ _
  | ObjectMethod (StringLiteral s) false _ _ => Some s
  | _ => None
  end.

Definition component_keys : list string := [ "extend"; "props"; "style"; "on" ].

Definition isComponent_as_specified (properties : list Member) : bool :=
  existsb (fun prop => match static_key_name prop with
                       | Some n => has component_keys n
                       | None => false
                       end) properties.

(** ** Sample inputs *)

(** [{ <key>: { <field> } }] *)
Definition component_with (key : string) (fields : list Member) : list Member :=
  [ ObjectProperty (Identifier key) false (ObjectExpression fields (loc_at 1 19)) (loc_at 1 12) ].

(** [width: '100px'] *)
Definition width_field : Member :=
  ObjectProperty (Identifier "width") false (StringLiteral "100px") (loc_at 2 4).

(** ['data-wrong': 'value'] and ['aria-label': 'x'], at columns 21 and 44 of
    the line below. *)
Definition data_wrong_at_21 : Member :=
  ObjectProperty (StringLiteral "data-wrong") false (StringLiteral "value") (loc_at 1 21).

Definition aria_label_at_44 : Member :=
  ObjectProperty (StringLiteral "aria-label") false (StringLiteral "x") (loc_at 1 44).

(** The file
<<
const A = { style: { 'data-wrong': 'value', 'aria-label': 'x' } };
>> *)
Definition data_in_style_ast : Node :=
  OtherNode "File" [ OtherNode "Program" [ OtherNode "VariableDeclaration" [
    OtherNode "VariableDeclarator" [ Identifier "A";
      ObjectExpression
        [ ObjectProperty (Identifier "style") false
            (ObjectExpression [ data_wrong_at_21; aria_label_at_44 ] (loc_at 1 19))
            (loc_at 1 12) ]
        (loc_at 1 10) ] ] ] ].

(** The file
<<
export const A = {
props: {
width: '100px'
}
};
>>
    written without indentation: the field [width] starts at line 3,
    column 0, the component literal at line 1, column 17. *)
Definition unindented_ast : Node :=
  OtherNode "File" [ OtherNode "Program" [ OtherNode "ExportNamedDeclaration" [
    OtherNode "VariableDeclaration" [ OtherNode "VariableDeclarator" [ Identifier "A";
      ObjectExpression
        [ ObjectProperty (Identifier "props") false
            (ObjectExpression
               [ ObjectProperty (Identifier "width") false
                   (StringLiteral "100px") (loc_at 3 0) ]
               (loc_at 2 7))
            (loc_at 2 0) ]
        (loc_at 1 17) ] ] ] ] ].

(** A reader and parser for three files [a.js], [broken.js] and [c.js], the
    second of which does not parse. *)
Definition sample_read_and_parse (filePath : string) : ParseOutcome :=
  if String.eqb filePath "broken.js" then Throws "Unexpected token (1:5)"
  else if String.eqb filePath "a.js" then Parsed unindented_ast
  else Parsed data_in_style_ast.

(** What every warning of the three checks has: the file it was found in, a
    line and a column of at least 1, severity warning, and a suggestion that
    is not empty. *)
Definition well_formed_warning (filePath : string) (d : Diagnostic) : Prop :=
  file d = filePath /\ 1 <= line d /\ 1 <= column d /\ severity d = warning /\
  exists c s, suggestion d = Some (String c s).

(** ** The report *)

(** A call of [console.log]: the chalk colour of its argument and the text.
    [console.log()] prints an empty line without colour. *)
Inductive Colour := Blue | Gray | Green | Red | Yellow | NoColour.

Record Log := mkLog {
  colour : Colour;
  text : string
}.

(** The pictographs that open the lines of the report. *)
Inductive Icon :=
| icon_starting | icon_results | icon_no_issues | icon_error
| icon_warning | icon_suggestion | icon_summary.

(** The line feed written [\n] in the source. *)
Definition nl : string := String (Ascii.ascii_of_nat 10) "".

(** A number inside a template literal: its decimal digits. *)
Definition number (n : nat) : string :=
  NilEmpty.string_of_uint (Nat.to_uint n).

Section Report.

(** The text of each pictograph. *)
Variable icon : Icon -> string.

(** The two calls of the loop [this.errors.forEach]. *)
Definition report_error (e : Diagnostic) : list Log :=
  [ mkLog Red (icon icon_error ++ " Error in " ++ file e ++ ":" ++
               number (line e) ++ ":" ++ number (column e));
    mkLog Red ("   " ++ message e ++ nl) ].

(** The three calls of the loop [this.warnings.forEach]; the test
    [if (warning.suggestion)] fails on a missing and on an empty suggestion. *)
Definition report_warning (w : Diagnostic) : list Log :=
  [ mkLog Yellow (icon icon_warning ++ "  Warning in " ++ file w ++ ":" ++
                  number (line w) ++ ":" ++ number (column w));
    mkLog Yellow ("   " ++ message w);
    match suggestion w with
    | Some (String c s) =>
        mkLog Gray ("   " ++ icon icon_suggestion ++ " " ++ String c s ++ nl)
    | _ => mkLog NoColour ""
    end ].

(** [reportResults()]: the calls of [console.log], in order. *)
Definition reportResults (this : DOMQLLinter) : list Log :=
  mkLog Blue (icon icon_results ++ " Linting Results:" ++ nl) ::
  if Nat.eqb (length (errors this)) 0 && Nat.eqb (length (warnings this)) 0
  then [ mkLog Green (icon icon_no_issues ++ " No issues found!") ]
  else
    flat_map report_error (errors this) ++
    flat_map report_warning (warnings this) ++
    [ mkLog Blue (nl ++ icon icon_summary ++ " Summary: " ++
                  number (length (errors this)) ++ " errors, " ++
                  number (length (warnings this)) ++ " warnings") ].

Variable glob : list string -> list string -> list string.
Variable read_and_parse : string -> ParseOutcome.

(** What [lint()] writes on the console. *)
Definition lint_console (this : DOMQLLinter) : list Log :=
  let fileList := glob (files (options this)) (ignore (options this)) in
  mkLog Blue (icon icon_starting ++ " DOMQL Linter starting..." ++ nl) ::
  mkLog Gray ("Found " ++ number (length fileList) ++ " files to analyze" ++ nl) ::
  reportResults (fst (lint glob read_and_parse this)).

End Report.

(** ** The command line *)

(** [s.split(',')] *)
Fixpoint split_commas (s : string) : list string :=
  match s with
  | EmptyString => [ "" ]
  | String c s' =>
      if Ascii.eqb c ","
      then "" :: split_commas s'
      else match split_commas s' with
           | piece :: pieces => String c piece :: pieces
           | [] => [ String c "" ]
           end
  end.

(** [pieces.join(',')]; the source does not call it, the facts on
    [split_commas] are stated with it. *)
Fixpoint join_commas (pieces : list string) : string :=
  match pieces with
  | [] => ""
  | [ piece ] => piece
  | piece :: rest => piece ++ "," ++ join_commas rest
  end.

(** The object [options] that the loop over the arguments fills. *)
Record CliOptions := mkCliOptions {
  cli_files : option (list string);
  cli_ignore : option (list string)
}.

Definition no_options : CliOptions :=
  {| cli_files := None; cli_ignore := None |}.

(** The loop [for (let i = 0; i < args.length; i++)] from argument [i] on.
    [args[i + 1]] is falsy when there is no such argument and when it is the
    empty string; a flag with a value takes two arguments, anything else
    one. *)
Fixpoint parse_args (args : list string) (options : CliOptions) : CliOptions :=
  match args with
  | [] => options
  | arg :: rest =>
      match rest with
      | String c v :: rest' =>
          if String.eqb arg "--files"
          then parse_args rest' {| cli_files := Some (split_commas (String c v));
                                   cli_ignore := cli_ignore options |}
          else if String.eqb arg "--ignore"
          then parse_args rest' {| cli_files := cli_files options;
                                   cli_ignore := Some (split_commas (String c v)) |}
          else parse_args rest options
      | _ => parse_args rest options
      end
  end.

Section CommandLine.

Variable glob : list string -> list string -> list string.
Variable read_and_parse : string -> ParseOutcome.

(** The block [if (require.main === module)]: the linter that is built from
    the arguments, after its run, and the code given to [process.exit]. *)
Definition cli (args : list string) : DOMQLLinter * nat :=
  let options := parse_args args no_options in
  let linter := constructor (cli_files options) (cli_ignore options) in
  let '(linter, success) := lint glob read_and_parse linter in
  (linter, if success then 0 else 1).

End CommandLine.

(** * Facts *)

(** ** Pushing and appending *)

Lemma add_diagnostics_nil (this : DOMQLLinter) :
  add_diagnostics this [] [] = this.
Proof.
  destruct this as [o es ws]; unfold add_diagnostics; simpl.
  now rewrite !app_nil_r.
Qed.

Lemma add_diagnostics_add (this : DOMQLLinter) (es1 ws1 es2 ws2 : list Diagnostic) :
  add_diagnostics (add_diagnostics this es1 ws1) es2 ws2 =
  add_diagnostics this (es1 ++ es2) (ws1 ++ ws2).
Proof.
  unfold add_diagnostics; simpl. now rewrite !app_assoc.
Qed.

Lemma push_warning_add (this : DOMQLLinter) (d : Diagnostic) :
  push_warning this d = add_diagnostics this [] [d].
Proof.
  unfold push_warning, add_diagnostics. now rewrite app_nil_r.
Qed.

Lemma push_error_add (this : DOMQLLinter) (d : Diagnostic) :
  push_error this d = add_diagnostics this [d] [].
Proof.
  unfold push_error, add_diagnostics. now rewrite app_nil_r.
Qed.

(** A loop whose body appends to the arrays appends, in all, the
    concatenation of what each round appends. *)
Lemma fold_left_add_diagnostics {A : Type}
    (body : DOMQLLinter -> A -> DOMQLLinter) (es ws : A -> list Diagnostic) :
  (forall this a, body this a = add_diagnostics this (es a) (ws a)) ->
  forall (l : list A) (this : DOMQLLinter),
    fold_left body l this = add_diagnostics this (flat_map es l) (flat_map ws l).
Proof.
  intros Hbody l; induction l as [|a l IH]; intros this; simpl.
  - now rewrite add_diagnostics_nil.
  - now rewrite Hbody, IH, add_diagnostics_add.
Qed.

Lemma flat_map_nil {A B : Type} (l : list A) :
  flat_map (fun _ : A => @nil B) l = [].
Proof.
  induction l; simpl; auto.
Qed.

Lemma extends_add_diagnostics (this : DOMQLLinter) (es ws : list Diagnostic) :
  extends this (add_diagnostics this es ws).
Proof.
  unfold extends, add_diagnostics; simpl; eauto.
Qed.

Lemma push_warning_neq (this : DOMQLLinter) (d : Diagnostic) :
  push_warning this d <> this.
Proof.
  intros H. apply (f_equal warnings) in H. simpl in H.
  apply (f_equal (@length Diagnostic)) in H.
  rewrite length_app in H. simpl in H. lia.
Qed.

(** ** The three loops, field by field *)

Lemma validatePropsObject_each_add filePath location this prop :
  validatePropsObject_each filePath location
    getStyleProperties getHTMLAttributes getEventHandlers this prop =
  add_diagnostics this [] (props_field_warnings filePath location prop).
Proof.
  unfold validatePropsObject_each, props_field_warnings.
  destruct (member_key prop) as [[n| | |]|]; try now rewrite add_diagnostics_nil.
  destruct (has getStyleProperties n), (has getEventHandlers n);
    rewrite ?push_warning_add, ?add_diagnostics_add; simpl;
    rewrite ?add_diagnostics_nil;
    destruct (startsWith n "data-"), (startsWith n "aria-"); reflexivity.
Qed.

Lemma validateStyleObject_each_add filePath location this prop :
  validateStyleObject_each filePath location getHTMLAttributes this prop =
  add_diagnostics this [] (style_field_warnings filePath location prop).
Proof.
  unfold validateStyleObject_each, style_field_warnings.
  destruct (member_key prop) as [[n| | |]|]; try now rewrite add_diagnostics_nil.
  destruct (has getHTMLAttributes n || startsWith n "data-" || startsWith n "aria-").
  - apply push_warning_add.
  - now rewrite add_diagnostics_nil.
Qed.

Lemma validateOnObject_each_add filePath location this prop :
  validateOnObject_each filePath location this prop =
  add_diagnostics this [] (on_field_warnings filePath location prop).
Proof.
  unfold validateOnObject_each, on_field_warnings.
  destruct (member_key prop) as [[n| | |]|]; try now rewrite add_diagnostics_nil.
  destruct (negb (startsWith n "on") && negb (has onExceptions n)).
  - apply push_warning_add.
  - now rewrite add_diagnostics_nil.
Qed.

Lemma validatePropsObject_add properties filePath location this :
  validatePropsObject properties filePath location
    getStyleProperties getHTMLAttributes getEventHandlers this =
  add_diagnostics this [] (flat_map (props_field_warnings filePath location) properties).
Proof.
  unfold validatePropsObject.
  rewrite (fold_left_add_diagnostics _ (fun _ => [])
             (props_field_warnings filePath location)).
  - now rewrite flat_map_nil.
  - intros; apply validatePropsObject_each_add.
Qed.

Lemma validateStyleObject_add properties filePath location this :
  validateStyleObject properties filePath location getHTMLAttributes this =
  add_diagnostics this [] (flat_map (style_field_warnings filePath location) properties).
Proof.
  unfold validateStyleObject.
  rewrite (fold_left_add_diagnostics _ (fun _ => [])
             (style_field_warnings filePath location)).
  - now rewrite flat_map_nil.
  - intros; apply validateStyleObject_each_add.
Qed.

Lemma validateOnObject_add properties filePath location this :
  validateOnObject properties filePath location this =
  add_diagnostics this [] (flat_map (on_field_warnings filePath location) properties).
Proof.
  unfold validateOnObject.
  rewrite (fold_left_add_diagnostics _ (fun _ => [])
             (on_field_warnings filePath location)).
  - now rewrite flat_map_nil.
  - intros; apply validateOnObject_each_add.
Qed.

(** A loop over [before ++ prop :: after] is the loop over [before], the
    round for [prop], and the loop over [after]. *)
Lemma fold_left_middle {A B : Type} (f : A -> B -> A) (before after : list B) (b : B) (a : A) :
  fold_left f (before ++ b :: after) a = fold_left f after (f (fold_left f before a) b).
Proof.
  now rewrite fold_left_app.
Qed.

(** ** The component check and the traversal *)

Lemma validateComponentStructure_add properties filePath location this :
  validateComponentStructure properties filePath location this =
  add_diagnostics this [] (component_warnings filePath (properties, location)).
Proof.
  unfold validateComponentStructure, component_warnings, sub_object_fields.
  destruct (sub_object "props" properties) as [ps|],
           (sub_object "style" properties) as [ss|],
           (sub_object "on" properties) as [os|];
    rewrite ?validateOnObject_add, ?validateStyleObject_add, ?validatePropsObject_add,
            ?add_diagnostics_add; simpl; rewrite ?app_nil_r, ?add_diagnostics_nil;
    reflexivity.
Qed.

Lemma checkObjectExpression_add filePath this path :
  checkObjectExpression filePath this path =
  add_diagnostics this [] (object_warnings filePath path).
Proof.
  destruct path as [properties location].
  unfold checkObjectExpression, object_warnings; simpl.
  destruct (isDOMQLComponent properties).
  - apply validateComponentStructure_add.
  - now rewrite add_diagnostics_nil.
Qed.

Lemma traverse_add filePath ast this :
  traverse ast (checkObjectExpression filePath) this =
  add_diagnostics this [] (tree_warnings filePath ast).
Proof.
  unfold traverse, tree_warnings.
  rewrite (fold_left_add_diagnostics _ (fun _ => []) (object_warnings filePath)).
  - now rewrite flat_map_nil.
  - intros; apply checkObjectExpression_add.
Qed.


(** The traversal enters an object literal before the literals inside its
    members, and those member by member. *)
Lemma object_expressions_ObjectExpression properties loc :
  object_expressions (ObjectExpression properties loc) =
  (properties, loc) :: flat_map object_expressions_member properties.
Proof.
  reflexivity.
Qed.

Lemma object_expressions_OtherNode ty children :
  object_expressions (OtherNode ty children) = flat_map object_expressions children.
Proof.
  reflexivity.
Qed.

Lemma object_expressions_ObjectProperty k c v l :
  object_expressions_member (ObjectProperty k c v l) =
  object_expressions k ++ object_expressions v.
Proof.
  reflexivity.
Qed.

(** ** The tables *)

Lemma has_true_iff (set : list string) (x : string) :
  has set x = true <-> In x set.
Proof.
  unfold has. rewrite existsb_exists. split.
  - intros [y [Hin Heq]]. apply String.eqb_eq in Heq. now subst.
  - intros Hin. exists x. split; [assumption | apply String.eqb_refl].
Qed.

Lemma has_false_iff (set : list string) (x : string) :
  has set x = false <-> ~ In x set.
Proof.
  rewrite <- has_true_iff. destruct (has set x); split; congruence.
Qed.

(** No style name is an event-handler name or an attribute name, and none
    starts with [data-] or [aria-]. *)
Lemma style_names_only_style (n : string) :
  In n getStyleProperties ->
  has getStyleProperties n = true /\ has getEventHandlers n = false /\
  has getHTMLAttributes n = false /\
  startsWith n "data-" = false /\ startsWith n "aria-" = false.
Proof.
  assert (Hall : forallb (fun n =>
            has getStyleProperties n && negb (has getEventHandlers n) &&
            negb (has getHTMLAttributes n) &&
            negb (startsWith n "data-") && negb (startsWith n "aria-"))
          getStyleProperties = true) by (vm_compute; reflexivity).
  intros Hin. rewrite forallb_forall in Hall. specialize (Hall n Hin).
  repeat (apply andb_prop in Hall; destruct Hall as [Hall ?]).
  repeat match goal with H : negb _ = true |- _ => apply negb_true_iff in H end.
  auto.
Qed.

(** No attribute name is a style name or an event-handler name. *)
Lemma attribute_names_only_attribute (n : string) :
  In n getHTMLAttributes ->
  has getHTMLAttributes n = true /\ has getStyleProperties n = false /\
  has getEventHandlers n = false.
Proof.
  assert (Hall : forallb (fun n =>
            has getHTMLAttributes n && negb (has getStyleProperties n) &&
            negb (has getEventHandlers n))
          getHTMLAttributes = true) by (vm_compute; reflexivity).
  intros Hin. rewrite forallb_forall in Hall. specialize (Hall n Hin).
  repeat (apply andb_prop in Hall; destruct Hall as [Hall ?]).
  repeat match goal with H : negb _ = true |- _ => apply negb_true_iff in H end.
  auto.
Qed.

(** ** Single fields *)

(** The component [{ <key>: { <field> } }] in its parts. *)
Lemma sub_object_single (key name : string) (fields : list Member) oloc mloc :
  sub_object name [ObjectProperty (Identifier key) false (ObjectExpression fields oloc) mloc] =
  if String.eqb key name then Some fields else None.
Proof.
  unfold sub_object; simpl. unfold key_named; simpl.
  destruct (String.eqb key name); reflexivity.
Qed.

Lemma validate_props_only fields oloc mloc filePath location this :
  validateComponentStructure
    [ObjectProperty (Identifier "props") false (ObjectExpression fields oloc) mloc]
    filePath location this =
  validatePropsObject fields filePath location
    getStyleProperties getHTMLAttributes getEventHandlers this.
Proof.
  unfold validateComponentStructure. rewrite !sub_object_single. reflexivity.
Qed.

Lemma validate_style_only fields oloc mloc filePath location this :
  validateComponentStructure
    [ObjectProperty (Identifier "style") false (ObjectExpression fields oloc) mloc]
    filePath location this =
  validateStyleObject fields filePath location getHTMLAttributes this.
Proof.
  unfold validateComponentStructure. rewrite !sub_object_single. reflexivity.
Qed.

Lemma validate_on_only fields oloc mloc filePath location this :
  validateComponentStructure
    [ObjectProperty (Identifier "on") false (ObjectExpression fields oloc) mloc]
    filePath location this =
  validateOnObject fields filePath location this.
Proof.
  unfold validateComponentStructure. rewrite !sub_object_single. reflexivity.
Qed.

(** ** Messages, and counting the warnings that carry one *)

Lemma string_length_append (a b : string) :
  String.length (a ++ b)%string = String.length a + String.length b.
Proof.
  induction a as [|c a IH]; simpl; [reflexivity | now rewrite IH].
Qed.

Lemma append_inj_r (a b post : string) : (a ++ post = b ++ post)%string -> a = b.
Proof.
  revert b. induction a as [|c a IH]; intros [|c' b] H; simpl in H.
  - reflexivity.
  - apply (f_equal String.length) in H. simpl in H.
    rewrite string_length_append in H. lia.
  - apply (f_equal String.length) in H. simpl in H.
    rewrite string_length_append in H. lia.
  - inversion H; subst. f_equal. now apply IH.
Qed.

Lemma append_inj_l (pre a b : string) : (pre ++ a = pre ++ b)%string -> a = b.
Proof.
  induction pre as [|c pre IH]; simpl; intros H; [exact H|].
  inversion H. now apply IH.
Qed.

(** Two texts made of the same opening, a name and the same ending are equal
    exactly when the names are. *)
Lemma eqb_between (pre post k n : string) :
  String.eqb (pre ++ k ++ post)%string (pre ++ n ++ post)%string = String.eqb k n.
Proof.
  destruct (String.eqb k n) eqn:E.
  - apply String.eqb_eq in E. subst. apply String.eqb_refl.
  - apply String.eqb_neq. intros H. apply String.eqb_neq in E. apply E.
    apply append_inj_l in H. now apply append_inj_r in H.
Qed.

Lemma count_warnings_app msg sugg ds1 ds2 :
  count_warnings msg sugg (ds1 ++ ds2) =
  count_warnings msg sugg ds1 + count_warnings msg sugg ds2.
Proof.
  unfold count_warnings. now rewrite filter_app, length_app.
Qed.

Lemma count_warnings_flat_map {A : Type} msg sugg (f : A -> list Diagnostic)
    (p : A -> bool) (l : list A) :
  (forall a, count_warnings msg sugg (f a) = if p a then 1 else 0) ->
  count_warnings msg sugg (flat_map f l) = length (filter p l).
Proof.
  intros Hf. induction l as [|a l IH]; simpl; [reflexivity|].
  rewrite count_warnings_app, Hf, IH. destruct (p a); reflexivity.
Qed.

Lemma count_warnings_flat_map_none {A : Type} msg sugg (f : A -> list Diagnostic)
    (l : list A) :
  (forall a, count_warnings msg sugg (f a) = 0) ->
  count_warnings msg sugg (flat_map f l) = 0.
Proof.
  intros Hf. induction l as [|a l IH]; simpl; [reflexivity|].
  now rewrite count_warnings_app, Hf, IH.
Qed.

Lemma count_warnings_one msg sugg d :
  count_warnings msg sugg [d] =
  if String.eqb (message d) msg &&
     match suggestion d with Some s => String.eqb s sugg | None => false end
  then 1 else 0.
Proof.
  unfold count_warnings. simpl.
  destruct (String.eqb (message d) msg &&
            match suggestion d with Some s => String.eqb s sugg | None => false end);
    reflexivity.
Qed.

Section Counting.

Variable filePath : string.
Variable location : option SourceLocation.t.
Variable n : string.

Lemma count_style_message_props_field (prop : Member) :
  In n getStyleProperties ->
  count_warnings
    ("Style property '" ++ n ++ "' should be in 'style' object, not 'props'")%string
    ("Move '" ++ n ++ "' to the 'style' object")%string
    (props_field_warnings filePath location prop) =
  if key_named n prop then 1 else 0.
Proof.
  intros Hin. destruct (style_names_only_style n Hin) as (Hs & He & _).
  unfold props_field_warnings, key_named.
  destruct (member_key prop) as [[k| | |]|]; try reflexivity.
  cbn [node_name].
  destruct (String.eqb k n) eqn:E.
  - apply String.eqb_eq in E. subst k. rewrite Hs, He. cbn [app].
    rewrite count_warnings_one. cbn [message suggestion style_in_props_warning].
    now rewrite !String.eqb_refl.
  - rewrite count_warnings_app.
    assert (H1 : count_warnings
    ("Style property '" ++ n ++ "' should be in 'style' object, not 'props'")%string
    ("Move '" ++ n ++ "' to the 'style' object")%string
                   (if has getStyleProperties k
                    then [style_in_props_warning filePath prop location k] else []) = 0).
    { destruct (has getStyleProperties k); [|reflexivity].
      rewrite count_warnings_one. cbn [message style_in_props_warning].
      rewrite (eqb_between "Style property '"
                 "' should be in 'style' object, not 'props'" k n), E. reflexivity. }
    assert (H2 : count_warnings
    ("Style property '" ++ n ++ "' should be in 'style' object, not 'props'")%string
    ("Move '" ++ n ++ "' to the 'style' object")%string
                   (if has getEventHandlers k
                    then [event_in_props_warning filePath prop location k] else []) = 0).
    { destruct (has getEventHandlers k); reflexivity. }
    now rewrite H1, H2.
Qed.

Lemma count_style_message_style_field (prop : Member) :
  count_warnings
    ("Style property '" ++ n ++ "' should be in 'style' object, not 'props'")%string
    ("Move '" ++ n ++ "' to the 'style' object")%string
    (style_field_warnings filePath location prop) = 0.
Proof.
  unfold style_field_warnings.
  destruct (member_key prop) as [[k| | |]|]; try reflexivity.
  destruct (has getHTMLAttributes k || startsWith k "data-" || startsWith k "aria-");
    reflexivity.
Qed.

Lemma count_style_message_on_field (prop : Member) :
  count_warnings
    ("Style property '" ++ n ++ "' should be in 'style' object, not 'props'")%string
    ("Move '" ++ n ++ "' to the 'style' object")%string
    (on_field_warnings filePath location prop) = 0.
Proof.
  unfold on_field_warnings.
  destruct (member_key prop) as [[k| | |]|]; try reflexivity.
  destruct (negb (startsWith k "on") && negb (has onExceptions k)); reflexivity.
Qed.

Lemma count_on_message_props_field (prop : Member) :
  count_warnings
    ("'" ++ n ++ "' doesn't look like an event handler and should probably be in 'props'")%string
    ("Consider moving '" ++ n ++ "' to the 'props' object")%string
    (props_field_warnings filePath location prop) = 0.
Proof.
  unfold props_field_warnings.
  destruct (member_key prop) as [[k| | |]|]; try reflexivity.
  destruct (has getStyleProperties k), (has getEventHandlers k); reflexivity.
Qed.

Lemma count_on_message_style_field (prop : Member) :
  count_warnings
    ("'" ++ n ++ "' doesn't look like an event handler and should probably be in 'props'")%string
    ("Consider moving '" ++ n ++ "' to the 'props' object")%string
    (style_field_warnings filePath location prop) = 0.
Proof.
  unfold style_field_warnings.
  destruct (member_key prop) as [[k| | |]|]; try reflexivity.
  destruct (has getHTMLAttributes k || startsWith k "data-" || startsWith k "aria-");
    reflexivity.
Qed.

Lemma count_on_message_on_field (prop : Member) :
  count_warnings
    ("'" ++ n ++ "' doesn't look like an event handler and should probably be in 'props'")%string
    ("Consider moving '" ++ n ++ "' to the 'props' object")%string
    (on_field_warnings filePath location prop) =
  if key_named n prop && (negb (startsWith n "on") && negb (has onExceptions n))
  then 1 else 0.
Proof.
  unfold on_field_warnings, key_named.
  destruct (member_key prop) as [[k| | |]|]; try reflexivity.
  cbn [node_name].
  destruct (String.eqb k n) eqn:E.
  - apply String.eqb_eq in E. subst k. cbn [andb].
    destruct (negb (startsWith n "on") && negb (has onExceptions n)); [|reflexivity].
    rewrite count_warnings_one. cbn [message suggestion not_a_handler_warning].
    now rewrite !String.eqb_refl.
  - cbn [andb].
    destruct (negb (startsWith k "on") && negb (has onExceptions k)); [|reflexivity].
    rewrite count_warnings_one. cbn [message not_a_handler_warning].
    rewrite (eqb_between "'"
               "' doesn't look like an event handler and should probably be in 'props'"
               k n), E. reflexivity.
Qed.

End Counting.

(** ** The member that holds a sub-object *)

Lemma key_named_true_iff (name : string) (prop : Member) :
  key_named name prop = true <-> member_key prop = Some (Identifier name).
Proof.
  unfold key_named.
  destruct (member_key prop) as [[n| | |]|]; simpl;
    try (split; [discriminate | intros H; inversion H]).
  rewrite String.eqb_eq. split; [intros ->; reflexivity | intros H; now inversion H].
Qed.

Lemma find_key_named_first (name : string) (before : list Member) (first : Member)
    (rest : list Member) :
  Forall (fun m => member_key m <> Some (Identifier name)) before ->
  member_key first = Some (Identifier name) ->
  find (key_named name) (before ++ first :: rest) = Some first.
Proof.
  intros Hbefore Hfirst. induction Hbefore as [|m before Hm _ IH]; simpl.
  - apply key_named_true_iff in Hfirst. now rewrite Hfirst.
  - destruct (key_named name m) eqn:Hk; [|exact IH].
    apply key_named_true_iff in Hk. contradiction.
Qed.

Lemma sub_object_at (name : string) (pre post fields : list Member) computed oloc mloc :
  Forall (fun m => member_key m <> Some (Identifier name)) pre ->
  sub_object name
    (pre ++ ObjectProperty (Identifier name) computed (ObjectExpression fields oloc) mloc
         :: post) = Some fields.
Proof.
  intros Hpre. unfold sub_object.
  rewrite (find_key_named_first name pre
             (ObjectProperty (Identifier name) computed (ObjectExpression fields oloc) mloc)
             post Hpre); reflexivity.
Qed.

Lemma find_other_member (name : string) (pre post : list Member) (m m' : Member) :
  key_named name m = false -> key_named name m' = false ->
  find (key_named name) (pre ++ m :: post) = find (key_named name) (pre ++ m' :: post).
Proof.
  intros Hm Hm'. induction pre as [|p pre IH]; simpl.
  - now rewrite Hm, Hm'.
  - destruct (key_named name p); [reflexivity | exact IH].
Qed.

Lemma sub_object_other_member (name : string) (pre post : list Member) (m m' : Member) :
  key_named name m = false -> key_named name m' = false ->
  sub_object name (pre ++ m :: post) = sub_object name (pre ++ m' :: post).
Proof.
  intros Hm Hm'. unfold sub_object. now rewrite (find_other_member name pre post m m').
Qed.

Lemma validateComponentStructure_warnings properties filePath location this :
  warnings (validateComponentStructure properties filePath location this) =
  warnings this ++
  flat_map (props_field_warnings filePath location) (sub_object_fields "props" properties) ++
  flat_map (style_field_warnings filePath location) (sub_object_fields "style" properties) ++
  flat_map (on_field_warnings filePath location) (sub_object_fields "on" properties).
Proof.
  rewrite validateComponentStructure_add. reflexivity.
Qed.

(** C1, as the code has it: for every name of the style table, a field with
    that name written as an identifier key inside the [props] sub-object
    makes the linter push exactly one warning, with the message
    "Style property '<name>' should be in 'style' object, not 'props'" and the
    suggestion "Move '<name>' to the 'style' object".  In a [props] loop with
    other fields the warning is pushed when the loop reaches the field, and
    the component [{ props: { <field> } }] yields this warning and nothing
    else.  In any component, whatever its other members are, the warnings
    with this message and suggestion that the check adds are as many as the
    first member keyed [props], an object literal, has fields with the
    identifier key <name>: exactly one for one such field.  The same field
    inside the [style] sub-object pushes nothing: any component gets the
    diagnostics it gets without that field.  (A field of that name with a
    string-literal key is passed over in both places.) *)
Theorem style_name_in_props_one_warning_in_style_none :
  forall n : string,
    In n getStyleProperties ->
    forall (filePath : string) (location : option SourceLocation.t) (this : DOMQLLinter),
      let message_n :=
        ("Style property '" ++ n ++ "' should be in 'style' object, not 'props'")%string in
      let suggestion_n := ("Move '" ++ n ++ "' to the 'style' object")%string in
      (forall (field : Member) (before after : list Member)
              (oloc mloc : option SourceLocation.t),
         member_key field = Some (Identifier n) ->
         let w := {| file := filePath;
                     line := warning_line field location;
                     column := warning_column field location;
                     message := message_n;
                     severity := warning;
                     suggestion := Some suggestion_n |} in
         validatePropsObject (before ++ field :: after) filePath location
           getStyleProperties getHTMLAttributes getEventHandlers this =
         validatePropsObject after filePath location
           getStyleProperties getHTMLAttributes getEventHandlers
           (push_warning
              (validatePropsObject before filePath location
                 getStyleProperties getHTMLAttributes getEventHandlers this) w)
         /\ validateComponentStructure
              [ObjectProperty (Identifier "props") false (ObjectExpression [field] oloc) mloc]
              filePath location this = push_warning this w
         /\ validateStyleObject (before ++ field :: after) filePath location
              getHTMLAttributes this =
            validateStyleObject (before ++ after) filePath location getHTMLAttributes this
         /\ validateComponentStructure
              [ObjectProperty (Identifier "style") false (ObjectExpression [field] oloc) mloc]
              filePath location this = this)
      /\ (forall (pre post fields : list Member) (computed : bool)
                 (oloc mloc : option SourceLocation.t),
            Forall (fun m => member_key m <> Some (Identifier "props")) pre ->
            count_warnings message_n suggestion_n
              (warnings
                 (validateComponentStructure
                    (pre ++ ObjectProperty (Identifier "props") computed
                              (ObjectExpression fields oloc) mloc :: post)
                    filePath location this)) =
            count_warnings message_n suggestion_n (warnings this) +
            length (filter (key_named n) fields))
      /\ (forall (pre post before after : list Member) (field : Member) (computed : bool)
                 (oloc mloc : option SourceLocation.t),
            member_key field = Some (Identifier n) ->
            Forall (fun m => member_key m <> Some (Identifier "style")) pre ->
            validateComponentStructure
              (pre ++ ObjectProperty (Identifier "style") computed
                        (ObjectExpression (before ++ field :: after) oloc) mloc :: post)
              filePath location this =
            validateComponentStructure
              (pre ++ ObjectProperty (Identifier "style") computed
                        (ObjectExpression (before ++ after) oloc) mloc :: post)
              filePath location this).
Proof.
  intros n Hin filePath location this message_n suggestion_n.
  destruct (style_names_only_style n Hin) as (Hs & He & Ha & Hd & Hr).
  split; [|split].
  - intros field before after oloc mloc Hkey w.
    assert (Hprops : forall st,
              validatePropsObject_each filePath location
                getStyleProperties getHTMLAttributes getEventHandlers st field =
              push_warning st w).
    { intros st. unfold validatePropsObject_each.
      rewrite Hkey, Hs, He, Hd, Hr. reflexivity. }
    assert (Hstyle : forall st,
              validateStyleObject_each filePath location getHTMLAttributes st field = st).
    { intros st. unfold validateStyleObject_each.
      rewrite Hkey, Ha, Hd, Hr. reflexivity. }
    repeat split.
    + unfold validatePropsObject. now rewrite fold_left_middle, Hprops.
    + rewrite validate_props_only. unfold validatePropsObject; simpl. apply Hprops.
    + unfold validateStyleObject. now rewrite fold_left_middle, Hstyle, fold_left_app.
    + rewrite validate_style_only. unfold validateStyleObject; simpl. apply Hstyle.
  - intros pre post fields computed oloc mloc Hpre.
    rewrite validateComponentStructure_warnings.
    unfold sub_object_fields at 1. rewrite (sub_object_at "props" pre post fields); [|exact Hpre].
    rewrite !count_warnings_app.
    rewrite (count_warnings_flat_map _ _ _ (key_named n)),
            !count_warnings_flat_map_none.
    + lia.
    + intros prop. apply (count_style_message_on_field filePath location n).
    + intros prop. apply (count_style_message_style_field filePath location n).
    + intros prop. now apply (count_style_message_props_field filePath location n).
  - intros pre post before after field computed oloc mloc Hkey Hpre.
    assert (Hstyle : forall st,
              validateStyleObject_each filePath location getHTMLAttributes st field = st).
    { intros st. unfold validateStyleObject_each.
      rewrite Hkey, Ha, Hd, Hr. reflexivity. }
    unfold validateComponentStructure.
    rewrite !(sub_object_at "style" pre post); try exact Hpre.
    rewrite (sub_object_other_member "props" pre post
               (ObjectProperty (Identifier "style") computed
                  (ObjectExpression (before ++ field :: after) oloc) mloc)
               (ObjectProperty (Identifier "style") computed
                  (ObjectExpression (before ++ after) oloc) mloc)); try reflexivity.
    rewrite (sub_object_other_member "on" pre post
               (ObjectProperty (Identifier "style") computed
                  (ObjectExpression (before ++ field :: after) oloc) mloc)
               (ObjectProperty (Identifier "style") computed
                  (ObjectExpression (before ++ after) oloc) mloc)); try reflexivity.
    cbv zeta.
    assert (Heq : forall st,
              validateStyleObject (before ++ field :: after) filePath location
                getHTMLAttributes st =
              validateStyleObject (before ++ after) filePath location getHTMLAttributes st).
    { intros st. unfold validateStyleObject.
      now rewrite fold_left_middle, Hstyle, fold_left_app. }
    now rewrite Heq.
Qed.

Lemma style_name_in_props_one_warning_in_style_none_witness :
  count_warnings "Style property 'width' should be in 'style' object, not 'props'"
    "Move 'width' to the 'style' object"
    (warnings
       (validateComponentStructure
          [ ObjectProperty (Identifier "extend") false (StringLiteral "div") (loc_at 4 2);
            ObjectProperty (Identifier "props") false
              (ObjectExpression
                 [ ObjectProperty (Identifier "width") false (StringLiteral "100px")
                     (loc_at 7 4);
                   ObjectProperty (Identifier "onClick") false
                     (OtherNode "ArrowFunctionExpression" []) (loc_at 13 4);
                   ObjectProperty (Identifier "id") false (StringLiteral "test-component")
                     (loc_at 17 4) ]
                 (loc_at 5 9))
              (loc_at 5 2);
            ObjectProperty (Identifier "style") false
              (ObjectExpression
                 [ ObjectProperty (Identifier "id") false (StringLiteral "wrong-id")
                     (loc_at 24 4) ]
                 (loc_at 22 9))
              (loc_at 22 2) ]
          "test-component.js" (loc_at 3 28) (constructor None None))) = 1.
Proof.
  assert (Hin : In "width" getStyleProperties) by (simpl; auto).
  assert (Hpre : Forall (fun m => member_key m <> Some (Identifier "props"))
                   [ ObjectProperty (Identifier "extend") false (StringLiteral "div")
                       (loc_at 4 2) ]).
  { constructor; [simpl; discriminate | constructor]. }
  destruct (style_name_in_props_one_warning_in_style_none "width" Hin
              "test-component.js" (loc_at 3 28) (constructor None None))
    as (_ & Hcount & _).
  exact (Hcount _ _ _ false (loc_at 5 9) (loc_at 5 2) Hpre).
Defined.

(** C1, where the claim fails.  In [{ props: { 'width': '100px' } }] the
    field has the static name [width], a name of the style table, written as
    a string-literal key: the literal is a component, its [props] sub-object
    holds the field, and no warning is pushed. *)
Lemma string_keyed_style_name_in_props_not_warned :
  let field :=
    ObjectProperty (StringLiteral "width") false (StringLiteral "100px") (loc_at 2 4) in
  let component :=
    [ ObjectProperty (Identifier "props") false (ObjectExpression [ field ] (loc_at 1 19))
        (loc_at 1 12) ] in
  In "width" getStyleProperties
  /\ static_key_name field = Some "width"
  /\ isDOMQLComponent component = true
  /\ sub_object "props" component = Some [ field ]
  /\ validateComponentStructure component "components.js" (loc_at 1 10)
       (constructor None None) = constructor None None
  /\ count_warnings "Style property 'width' should be in 'style' object, not 'props'"
       "Move 'width' to the 'style' object"
       (warnings (validateComponentStructure component "components.js" (loc_at 1 10)
                    (constructor None None))) = 0.
Proof.
  repeat split. simpl. auto.
Qed.

(** C3, as the code has it: a field written with an identifier key inside
    the [on] sub-object makes the linter push exactly one warning, with the
    message "'<name>' doesn't look like an event handler and should probably
    be in 'props'" and the suggestion "Consider moving '<name>' to the 'props'
    object", if and only if its name does not start with [on] and is none of
    [mouseenter], [mouseleave], [click], [keydown], [keyup]; otherwise it
    pushes nothing.  This holds for the round of the loop that reaches the
    field, for the component [{ on: { <field> } }], and in any component,
    whatever its other members are: the warnings with this message and
    suggestion that the check adds are as many as the first member keyed
    [on], an object literal, has fields with the identifier key <name> when
    the name is no handler name, and none when it is one.  (A field with a
    string-literal key is passed over.) *)
Theorem on_field_warned_iff_not_a_handler :
  forall (n : string) (filePath : string) (location : option SourceLocation.t)
         (this : DOMQLLinter),
    let message_n :=
      ("'" ++ n ++
       "' doesn't look like an event handler and should probably be in 'props'")%string in
    let suggestion_n := ("Consider moving '" ++ n ++ "' to the 'props' object")%string in
    let not_a_handler :=
      startsWith n "on" = false /\
      ~ In n ["mouseenter"; "mouseleave"; "click"; "keydown"; "keyup"] in
    (forall (field : Member) (before after : list Member)
            (oloc mloc : option SourceLocation.t),
       member_key field = Some (Identifier n) ->
       let w := {| file := filePath;
                   line := warning_line field location;
                   column := warning_column field location;
                   message := message_n;
                   severity := warning;
                   suggestion := Some suggestion_n |} in
       let component :=
         [ObjectProperty (Identifier "on") false (ObjectExpression [field] oloc) mloc] in
       (validateComponentStructure component filePath location this = push_warning this w
        <-> not_a_handler)
       /\ (validateComponentStructure component filePath location this = this
           <-> ~ not_a_handler)
       /\ validateOnObject (before ++ field :: after) filePath location this =
          validateOnObject after filePath location
            (if negb (startsWith n "on") && negb (has onExceptions n)
             then push_warning (validateOnObject before filePath location this) w
             else validateOnObject before filePath location this))
    /\ (forall (pre post fields : list Member) (computed : bool)
               (oloc mloc : option SourceLocation.t),
          Forall (fun m => member_key m <> Some (Identifier "on")) pre ->
          let finished :=
            validateComponentStructure
              (pre ++ ObjectProperty (Identifier "on") computed
                        (ObjectExpression fields oloc) mloc :: post)
              filePath location this in
          (not_a_handler ->
           count_warnings message_n suggestion_n (warnings finished) =
           count_warnings message_n suggestion_n (warnings this) +
           length (filter (key_named n) fields))
          /\ (~ not_a_handler ->
              count_warnings message_n suggestion_n (warnings finished) =
              count_warnings message_n suggestion_n (warnings this))).
Proof.
  intros n filePath location this message_n suggestion_n not_a_handler.
  assert (Hcond : negb (startsWith n "on") && negb (has onExceptions n) = true
                  <-> not_a_handler).
  { unfold not_a_handler. rewrite andb_true_iff, !negb_true_iff, has_false_iff.
    reflexivity. }
  split.
  - intros field before after oloc mloc Hkey w component.
    assert (Heach : forall st,
              validateOnObject_each filePath location st field =
              if negb (startsWith n "on") && negb (has onExceptions n)
              then push_warning st w else st).
    { intros st. unfold validateOnObject_each. rewrite Hkey. reflexivity. }
    assert (Hcomp : validateComponentStructure component filePath location this =
                    if negb (startsWith n "on") && negb (has onExceptions n)
                    then push_warning this w else this).
    { unfold component. rewrite validate_on_only. unfold validateOnObject; simpl.
      apply Heach. }
    split; [|split].
    + rewrite Hcomp, <- Hcond.
      destruct (negb (startsWith n "on") && negb (has onExceptions n)).
      * split; reflexivity.
      * split; [|discriminate]. intros H; symmetry in H.
        now apply push_warning_neq in H.
    + rewrite Hcomp, <- Hcond.
      destruct (negb (startsWith n "on") && negb (has onExceptions n)).
      * split; [|congruence]. intros H. now apply push_warning_neq in H.
      * split; [congruence | reflexivity].
    + unfold validateOnObject. rewrite fold_left_middle, Heach.
      destruct (negb (startsWith n "on") && negb (has onExceptions n)); reflexivity.
  - intros pre post fields computed oloc mloc Hpre finished.
    assert (Hcount : count_warnings message_n suggestion_n (warnings finished) =
                     count_warnings message_n suggestion_n (warnings this) +
                     length (filter (fun prop =>
                                       key_named n prop &&
                                       (negb (startsWith n "on") &&
                                        negb (has onExceptions n))) fields)).
    { unfold finished. rewrite validateComponentStructure_warnings.
      unfold sub_object_fields at 3.
      rewrite (sub_object_at "on" pre post fields); [|exact Hpre].
      rewrite !count_warnings_app.
      rewrite (count_warnings_flat_map_none _ _
                 (props_field_warnings filePath location)),
              (count_warnings_flat_map_none _ _
                 (style_field_warnings filePath location)),
              (count_warnings_flat_map _ _ (on_field_warnings filePath location)
                 (fun prop => key_named n prop &&
                              (negb (startsWith n "on") && negb (has onExceptions n)))).
      - lia.
      - intros prop. apply (count_on_message_on_field filePath location n).
      - intros prop. apply (count_on_message_style_field filePath location n).
      - intros prop. apply (count_on_message_props_field filePath location n). }
    split; intros H; rewrite Hcount.
    + apply Hcond in H. rewrite H. f_equal. f_equal.
      apply filter_ext. intros prop. apply andb_true_r.
    + assert (Hfalse : negb (startsWith n "on") && negb (has onExceptions n) = false).
      { destruct (negb (startsWith n "on") && negb (has onExceptions n)) eqn:E;
          [|reflexivity]. exfalso. apply H. now apply Hcond. }
      rewrite Hfalse.
      assert (Hnone : forall l : list Member,
                filter (fun prop => key_named n prop && false) l = []).
      { induction l as [|p l IH]; simpl; [reflexivity|].
        now rewrite andb_false_r. }
      rewrite Hnone. simpl. lia.
Qed.

Lemma on_field_warned_iff_not_a_handler_witness :
  count_warnings "'id' doesn't look like an event handler and should probably be in 'props'"
    "Consider moving 'id' to the 'props' object"
    (warnings
       (validateComponentStructure
          [ ObjectProperty (Identifier "extend") false (StringLiteral "div") (loc_at 4 2);
            ObjectProperty (Identifier "on") false
              (ObjectExpression
                 [ ObjectProperty (Identifier "id") false (StringLiteral "wrong-id")
                     (loc_at 35 4);
                   ObjectProperty (Identifier "click") false
                     (OtherNode "ArrowFunctionExpression" []) (loc_at 39 4) ]
                 (loc_at 33 6))
              (loc_at 33 2) ]
          "test-component.js" (loc_at 3 28) (constructor None None))) = 1.
Proof.
  assert (Hpre : Forall (fun m => member_key m <> Some (Identifier "on"))
                   [ ObjectProperty (Identifier "extend") false (StringLiteral "div")
                       (loc_at 4 2) ]).
  { constructor; [simpl; discriminate | constructor]. }
  assert (Hnot : startsWith "id" "on" = false /\
                 ~ In "id" ["mouseenter"; "mouseleave"; "click"; "keydown"; "keyup"]).
  { split; [reflexivity|]. simpl.
    intros [H | [H | [H | [H | [H | []]]]]]; discriminate H. }
  destruct (on_field_warned_iff_not_a_handler "id" "test-component.js" (loc_at 3 28)
              (constructor None None)) as (_ & Hcount).
  destruct (Hcount
              [ ObjectProperty (Identifier "extend") false (StringLiteral "div")
                  (loc_at 4 2) ]
              []
              [ ObjectProperty (Identifier "id") false (StringLiteral "wrong-id")
                  (loc_at 35 4);
                ObjectProperty (Identifier "click") false
                  (OtherNode "ArrowFunctionExpression" []) (loc_at 39 4) ]
              false (loc_at 33 6) (loc_at 33 2) Hpre) as [H _].
  exact (H Hnot).
Defined.

(** C3, where the claim fails.  In [{ on: { 'id': 'wrong-id' } }] the field
    has the static name [id], which does not start with [on] and is none of
    the five exceptions, written as a string-literal key: the literal is a
    component, its [on] sub-object holds the field, and no warning is
    pushed. *)
Lemma string_keyed_field_in_on_not_warned :
  let field :=
    ObjectProperty (StringLiteral "id") false (StringLiteral "wrong-id") (loc_at 2 4) in
  let component :=
    [ ObjectProperty (Identifier "on") false (ObjectExpression [ field ] (loc_at 1 16))
        (loc_at 1 12) ] in
  static_key_name field = Some "id"
  /\ startsWith "id" "on" = false
  /\ ~ In "id" ["mouseenter"; "mouseleave"; "click"; "keydown"; "keyup"]
  /\ isDOMQLComponent component = true
  /\ sub_object "on" component = Some [ field ]
  /\ validateComponentStructure component "components.js" (loc_at 1 10)
       (constructor None None) = constructor None None
  /\ count_warnings
       "'id' doesn't look like an event handler and should probably be in 'props'"
       "Consider moving 'id' to the 'props' object"
       (warnings (validateComponentStructure component "components.js" (loc_at 1 10)
                    (constructor None None))) = 0.
Proof.
  repeat split. simpl.
  intros [H | [H | [H | [H | [H | []]]]]]; discriminate H.
Qed.

(** C10: in the three sub-object checks a member whose key is not an
    identifier node (a string-literal key such as ['data-testid'] or
    ['aria-label'], any other key expression, or a spread element, which has
    no key) is passed over: the round of the loop for it leaves the linter
    unchanged, and each check gives the same result as on the sub-object
    without that member.  So only a member with an identifier key can make a
    check push a warning. *)
Theorem non_identifier_key_never_examined :
  forall field : Member,
    (forall name : string, member_key field <> Some (Identifier name)) ->
    forall (filePath : string) (location : option SourceLocation.t)
           (before after : list Member) (this : DOMQLLinter),
      validatePropsObject_each filePath location
        getStyleProperties getHTMLAttributes getEventHandlers this field = this
      /\ validateStyleObject_each filePath location getHTMLAttributes this field = this
      /\ validateOnObject_each filePath location this field = this
      /\ validatePropsObject (before ++ field :: after) filePath location
           getStyleProperties getHTMLAttributes getEventHandlers this =
         validatePropsObject (before ++ after) filePath location
           getStyleProperties getHTMLAttributes getEventHandlers this
      /\ validateStyleObject (before ++ field :: after) filePath location
           getHTMLAttributes this =
         validateStyleObject (before ++ after) filePath location getHTMLAttributes this
      /\ validateOnObject (before ++ field :: after) filePath location this =
         validateOnObject (before ++ after) filePath location this.
Proof.
  intros field Hkey filePath location before after this.
  assert (Hp : forall st, validatePropsObject_each filePath location
                 getStyleProperties getHTMLAttributes getEventHandlers st field = st).
  { intros st. unfold validatePropsObject_each.
    destruct (member_key field) as [[name| | |]|]; try reflexivity.
    now destruct (Hkey name). }
  assert (Hs : forall st,
                 validateStyleObject_each filePath location getHTMLAttributes st field = st).
  { intros st. unfold validateStyleObject_each.
    destruct (member_key field) as [[name| | |]|]; try reflexivity.
    now destruct (Hkey name). }
  assert (Ho : forall st, validateOnObject_each filePath location st field = st).
  { intros st. unfold validateOnObject_each.
    destruct (member_key field) as [[name| | |]|]; try reflexivity.
    now destruct (Hkey name). }
  repeat split; auto.
  - unfold validatePropsObject. now rewrite fold_left_middle, Hp, fold_left_app.
  - unfold validateStyleObject. now rewrite fold_left_middle, Hs, fold_left_app.
  - unfold validateOnObject. now rewrite fold_left_middle, Ho, fold_left_app.
Qed.

Lemma non_identifier_key_never_examined_witness :
  validateStyleObject_each "components.js" (loc_at 1 10) getHTMLAttributes
    (constructor None None) data_wrong_at_21 = constructor None None.
Proof.
  assert (Hkey : forall name : string,
            member_key data_wrong_at_21 <> Some (Identifier name))
    by (intros name; simpl; discriminate).
  destruct (non_identifier_key_never_examined data_wrong_at_21 Hkey
              "components.js" (loc_at 1 10) [] [] (constructor None None))
    as (_ & H & _).
  exact H.
Defined.

(** ** The component detector *)

Lemma existsb_key_named_iff (name : string) (properties : list Member) :
  existsb (key_named name) properties = true <->
  exists field, In field properties /\ member_key field = Some (Identifier name).
Proof.
  rewrite existsb_exists.
  split; intros [field [Hin H]]; exists field; split; auto;
    now apply key_named_true_iff.
Qed.

(** C4, as the code has it: the detector answers true if and only if some
    direct member of the literal (a property or a method, computed or not) has
    an identifier node as its key whose name is one of [extend], [props],
    [style], [on].  A string-literal key is not looked at, a spread element
    has no key, and members of nested literals play no part. *)
Theorem isDOMQLComponent_iff_identifier_key :
  forall properties : list Member,
    isDOMQLComponent properties = true <->
    exists (field : Member) (name : string),
      In field properties /\
      member_key field = Some (Identifier name) /\
      In name ["extend"; "props"; "style"; "on"].
Proof.
  intros properties. unfold isDOMQLComponent.
  rewrite !orb_true_iff, !existsb_key_named_iff. split.
  - intros [[[[f [Hin Hk]] | [f [Hin Hk]]] | [f [Hin Hk]]] | [f [Hin Hk]]];
      eexists f, _; (split; [exact Hin | split; [exact Hk | simpl; auto]]).
  - intros (f & name & Hin & Hk & Hname). simpl in Hname.
    destruct Hname as [<- | [<- | [<- | [<- | []]]]]; eauto 6.
Qed.

(** C4, where the claim fails.  The literal [{ 'props': {} }] has the static
    string key [props] and is no component for the detector; the literal
    [{ [props]: {} }] has a computed key only and is a component for it. *)
Lemma isDOMQLComponent_not_as_specified :
  let string_keyed :=
    [ObjectProperty (StringLiteral "props") false (ObjectExpression [] None) None] in
  let computed_keyed :=
    [ObjectProperty (Identifier "props") true (ObjectExpression [] None) None] in
  (isComponent_as_specified string_keyed = true /\ isDOMQLComponent string_keyed = false)
  /\ (isComponent_as_specified computed_keyed = false /\ isDOMQLComponent computed_keyed = true)
  /\ ~ (forall properties, isDOMQLComponent properties = isComponent_as_specified properties).
Proof.
  repeat split.
  intros H.
  specialize (H [ObjectProperty (StringLiteral "props") false (ObjectExpression [] None) None]).
  discriminate H.
Qed.

(** ** Locations *)

(** The line and the column of a warning are resolved one apart from the
    other, and a number 0 counts as missing. *)
Lemma warning_column_resolution (field : Member) (location : option SourceLocation.t) :
  warning_column field location =
  match start_column (member_loc field) with
  | Some (S c) => S c
  | _ => match start_column location with
         | Some (S c) => S c
         | _ => 1
         end
  end.
Proof.
  unfold warning_column, js_or_default, js_or.
  destruct (start_column (member_loc field)) as [[|c]|];
    destruct (start_column location) as [[|c']|]; reflexivity.
Qed.

Lemma warning_line_resolution (field : Member) (location : option SourceLocation.t) :
  warning_line field location =
  match start_line (member_loc field) with
  | Some (S l) => S l
  | _ => match start_line location with
         | Some (S l) => S l
         | _ => 1
         end
  end.
Proof.
  unfold warning_line, js_or_default, js_or.
  destruct (start_line (member_loc field)) as [[|l]|];
    destruct (start_line location) as [[|l']|]; reflexivity.
Qed.

(** C7, where the code departs from the claim.  In a file written without
    indentation the field [width] of [props] stands at line 3, column 0, and
    the component literal at line 1, column 17.  The position of the field is
    available, yet the warning carries the line of the field and the column of
    the component: column 0 is taken for a missing column. *)
Theorem column_zero_taken_from_component :
  lint (fun _ _ => ["unindented.js"]) (fun _ => Parsed unindented_ast)
       (constructor None None) =
  ({| options := options (constructor None None);
      errors := [];
      warnings :=
        [ {| file := "unindented.js"; line := 3; column := 17;
             message := "Style property 'width' should be in 'style' object, not 'props'";
             severity := warning;
             suggestion := Some "Move 'width' to the 'style' object" |} ] |},
   true).
Proof.
  reflexivity.
Qed.

(** C2, where the code departs from the claim.  A name that begins with
    [data-] or [aria-] is no identifier, so a field of that name is written
    with a string-literal key; the [style] check looks at identifier keys only.
    In the file [const A = { style: { 'data-wrong': 'value', 'aria-label': 'x' } }]
    the literal is found to be a component and no warning is pushed. *)
Theorem data_prefixed_field_in_style_not_warned :
  let fields := [ data_wrong_at_21; aria_label_at_44 ] in
  let component :=
    [ ObjectProperty (Identifier "style") false
        (ObjectExpression fields (loc_at 1 19)) (loc_at 1 12) ] in
  object_expressions data_in_style_ast =
    [ (component, loc_at 1 10); (fields, loc_at 1 19) ]
  /\ isDOMQLComponent component = true
  /\ sub_object "style" component = Some fields
  /\ validateComponentStructure component "data.js" (loc_at 1 10) (constructor None None) =
     constructor None None
  /\ lint (fun _ _ => ["data.js"]) (fun _ => Parsed data_in_style_ast)
          (constructor None None) =
     (constructor None None, true).
Proof.
  repeat split.
Qed.

(** What the [style] check does do: for a field with an identifier key whose
    name is in the attribute table it pushes one warning, and the [props]
    check pushes none for it. *)
Lemma attribute_identifier_in_style_one_warning_in_props_none :
  forall (n : string) (field : Member),
    In n getHTMLAttributes ->
    member_key field = Some (Identifier n) ->
    forall (filePath : string) (location : option SourceLocation.t) (this : DOMQLLinter),
      validateStyleObject_each filePath location getHTMLAttributes this field =
      push_warning this
        {| file := filePath;
           line := warning_line field location;
           column := warning_column field location;
           message := "HTML attribute '" ++ n ++ "' should be in 'props' object, not 'style'";
           severity := warning;
           suggestion := Some ("Move '" ++ n ++ "' to the 'props' object")%string |}
      /\ validatePropsObject_each filePath location
           getStyleProperties getHTMLAttributes getEventHandlers this field = this.
Proof.
  intros n field Hin Hkey filePath location this.
  destruct (attribute_names_only_attribute n Hin) as (Ha & Hs & He).
  split.
  - unfold validateStyleObject_each. rewrite Hkey, Ha. reflexivity.
  - unfold validatePropsObject_each. rewrite Hkey, Hs, He.
    destruct (startsWith n "data-"), (startsWith n "aria-"); reflexivity.
Qed.

(** ** Severities *)

Lemma filter_is_error_none (ds : list Diagnostic) :
  Forall (fun d => severity d = warning) ds -> filter is_error ds = [].
Proof.
  induction 1 as [|d ds Hd _ IH]; simpl; [reflexivity|].
  unfold is_error at 1. now rewrite Hd.
Qed.

Lemma filter_is_error_all (ds : list Diagnostic) :
  Forall (fun d => severity d = error) ds -> filter is_error ds = ds.
Proof.
  induction 1 as [|d ds Hd _ IH]; simpl; [reflexivity|].
  unfold is_error at 1. now rewrite Hd, IH.
Qed.

Lemma Forall_flat_map {A B : Type} (P : B -> Prop) (f : A -> list B) (l : list A) :
  (forall a, Forall P (f a)) -> Forall P (flat_map f l).
Proof.
  intros Hf. induction l as [|a l IH]; simpl; [constructor|].
  apply Forall_app; auto.
Qed.

Lemma props_field_warnings_severity filePath location prop :
  Forall (fun d => severity d = warning) (props_field_warnings filePath location prop).
Proof.
  unfold props_field_warnings.
  destruct (member_key prop) as [[n| | |]|]; try constructor.
  destruct (has getStyleProperties n), (has getEventHandlers n); simpl;
    repeat constructor.
Qed.

Lemma style_field_warnings_severity filePath location prop :
  Forall (fun d => severity d = warning) (style_field_warnings filePath location prop).
Proof.
  unfold style_field_warnings.
  destruct (member_key prop) as [[n| | |]|]; try constructor.
  destruct (has getHTMLAttributes n || startsWith n "data-" || startsWith n "aria-");
    repeat constructor.
Qed.

Lemma on_field_warnings_severity filePath location prop :
  Forall (fun d => severity d = warning) (on_field_warnings filePath location prop).
Proof.
  unfold on_field_warnings.
  destruct (member_key prop) as [[n| | |]|]; try constructor.
  destruct (negb (startsWith n "on") && negb (has onExceptions n)); repeat constructor.
Qed.

Lemma tree_warnings_severity filePath ast :
  Forall (fun d => severity d = warning) (tree_warnings filePath ast).
Proof.
  unfold tree_warnings. apply Forall_flat_map. intros [properties location].
  unfold object_warnings; simpl. destruct (isDOMQLComponent properties); [|constructor].
  unfold component_warnings. rewrite !Forall_app. repeat split; apply Forall_flat_map.
  - apply props_field_warnings_severity.
  - apply style_field_warnings_severity.
  - apply on_field_warnings_severity.
Qed.

(** ** Runs *)

Section RunFacts.

Variable glob : list string -> list string -> list string.
Variable read_and_parse : string -> ParseOutcome.

Lemma lintFile_add (this : DOMQLLinter) (filePath : string) :
  lintFile read_and_parse this filePath =
  add_diagnostics this (file_errors read_and_parse filePath)
                       (file_warnings read_and_parse filePath).
Proof.
  unfold lintFile, file_errors, file_warnings.
  destruct (read_and_parse filePath) as [m | ast].
  - apply push_error_add.
  - apply traverse_add.
Qed.

Lemma lintFiles_add (fileList : list string) (this : DOMQLLinter) :
  lintFiles read_and_parse fileList this =
  add_diagnostics this (flat_map (file_errors read_and_parse) fileList)
                       (flat_map (file_warnings read_and_parse) fileList).
Proof.
  unfold lintFiles. apply fold_left_add_diagnostics. apply lintFile_add.
Qed.

Lemma file_errors_severity (filePath : string) :
  Forall (fun d => severity d = error) (file_errors read_and_parse filePath).
Proof.
  unfold file_errors.
  destruct (read_and_parse filePath); repeat constructor.
Qed.

Lemma file_warnings_severity (filePath : string) :
  Forall (fun d => severity d = warning) (file_warnings read_and_parse filePath).
Proof.
  unfold file_warnings.
  destruct (read_and_parse filePath); [constructor | apply tree_warnings_severity].
Qed.

Lemma no_file_errors_iff (fileList : list string) :
  flat_map (file_errors read_and_parse) fileList = [] <->
  forall filePath, In filePath fileList -> exists ast, read_and_parse filePath = Parsed ast.
Proof.
  induction fileList as [|f fl IH]; simpl.
  - split; [intros _ g [] | reflexivity].
  - unfold file_errors at 1. split.
    + intros H g [<- | Hg].
      * destruct (read_and_parse f) as [m | ast]; [discriminate H | eauto].
      * apply IH; [|exact Hg].
        destruct (read_and_parse f); [discriminate H | exact H].
    + intros H. destruct (H f (or_introl eq_refl)) as [ast ->]. simpl.
      apply IH. intros g Hg. apply H. now right.
Qed.

Lemma lint_flag (this : DOMQLLinter) :
  snd (lint glob read_and_parse this) = true <->
  errors (fst (lint glob read_and_parse this)) = [].
Proof.
  unfold lint; simpl. rewrite Nat.eqb_eq. apply length_zero_iff_nil.
Qed.

Lemma lint_add (this : DOMQLLinter) :
  fst (lint glob read_and_parse this) =
  add_diagnostics this
    (flat_map (file_errors read_and_parse)
              (glob (files (options this)) (ignore (options this))))
    (flat_map (file_warnings read_and_parse)
              (glob (files (options this)) (ignore (options this)))).
Proof.
  unfold lint; simpl. apply lintFiles_add.
Qed.

End RunFacts.

Section RunClaims.

Variable glob : list string -> list string -> list string.
Variable read_and_parse : string -> ParseOutcome.

(** C5: when reading or parsing a file throws, [lintFile] pushes exactly one
    diagnostic for it, on the errors, with line 1, column 1, the message
    "Parse error: <underlying message>" and severity error, and pushes no
    warning.  The loop over the files goes on with the next file from there:
    the files after the failing one add the diagnostics they add in any
    other run, and the warnings of the run are those of the run without the
    failing file. *)
Theorem parse_failure_one_error_and_run_continues :
  forall filePath error_message : string,
    read_and_parse filePath = Throws error_message ->
    let e := {| file := filePath; line := 1; column := 1;
                message := "Parse error: " ++ error_message;
                severity := error; suggestion := None |} in
    (forall this, lintFile read_and_parse this filePath = push_error this e)
    /\ forall (before after : list string) (this : DOMQLLinter),
         let reached := lintFiles read_and_parse before this in
         let finished := lintFiles read_and_parse (before ++ filePath :: after) this in
         finished = lintFiles read_and_parse after (push_error reached e)
         /\ errors finished =
            errors reached ++ e :: flat_map (file_errors read_and_parse) after
         /\ warnings finished =
            warnings reached ++ flat_map (file_warnings read_and_parse) after
         /\ warnings finished =
            warnings (lintFiles read_and_parse (before ++ after) this).
Proof.
  intros filePath error_message Hthrows e.
  assert (Hfile : forall this, lintFile read_and_parse this filePath = push_error this e).
  { intros this. unfold lintFile. now rewrite Hthrows. }
  split; [exact Hfile|].
  intros before after this reached finished.
  assert (Hrun : finished = lintFiles read_and_parse after (push_error reached e)).
  { unfold finished, reached, lintFiles. now rewrite fold_left_middle, Hfile. }
  split; [exact Hrun|].
  assert (He : file_errors read_and_parse filePath = [e]).
  { unfold file_errors. now rewrite Hthrows. }
  assert (Hw : file_warnings read_and_parse filePath = []).
  { unfold file_warnings. now rewrite Hthrows. }
  unfold finished, reached. rewrite !lintFiles_add. simpl.
  rewrite !flat_map_app. simpl. rewrite He, Hw. simpl.
  rewrite <- !app_assoc. repeat split.
Qed.

(** C6: for a run of a newly built linter, the flag that [lint] returns is
    true if and only if the run has produced no diagnostic of severity
    error, that is, if and only if the [try] block of [lintFile] has thrown
    for no file of the list.  Warnings do
    not count: the diagnostics of severity error are those of the errors
    array, the flag of any run is true exactly when that array is empty,
    and it stays the same whatever the warnings array holds. *)
Theorem success_iff_no_error_diagnostic :
  forall files_opt ignore_opt : option (list string),
    let run := lint glob read_and_parse (constructor files_opt ignore_opt) in
    (snd run = true <->
     filter is_error (errors (fst run) ++ warnings (fst run)) = [])
    /\ (snd run = true <->
        forall filePath,
          In filePath (glob (files (options (constructor files_opt ignore_opt)))
                            (ignore (options (constructor files_opt ignore_opt)))) ->
          exists ast, read_and_parse filePath = Parsed ast)
    /\ filter is_error (warnings (fst run)) = []
    /\ (forall this, snd (lint glob read_and_parse this) = true <->
                     errors (fst (lint glob read_and_parse this)) = [])
    /\ (forall o es ws ws',
          snd (lint glob read_and_parse {| options := o; errors := es; warnings := ws |}) =
          snd (lint glob read_and_parse {| options := o; errors := es; warnings := ws' |})).
Proof.
  intros files_opt ignore_opt run.
  set (this := constructor files_opt ignore_opt) in *.
  set (fileList := glob (files (options this)) (ignore (options this))).
  assert (Hfst : fst run = add_diagnostics this
                   (flat_map (file_errors read_and_parse) fileList)
                   (flat_map (file_warnings read_and_parse) fileList))
    by apply lint_add.
  assert (Hws : filter is_error (warnings (fst run)) = []).
  { rewrite Hfst. simpl. apply filter_is_error_none, Forall_flat_map.
    apply file_warnings_severity. }
  assert (Hes : filter is_error (errors (fst run)) = errors (fst run)).
  { rewrite Hfst. simpl. apply filter_is_error_all, Forall_flat_map.
    apply file_errors_severity. }
  assert (Hflag : snd run = true <-> errors (fst run) = []) by apply lint_flag.
  repeat split.
  - intros H. rewrite filter_app, Hws, Hes, app_nil_r. now apply Hflag.
  - intros H. rewrite filter_app, Hws, Hes, app_nil_r in H. now apply Hflag.
  - intros H. apply Hflag in H. rewrite Hfst in H. simpl in H.
    now apply no_file_errors_iff.
  - intros H. apply Hflag. rewrite Hfst. simpl.
    now apply no_file_errors_iff.
  - exact Hws.
  - apply lint_flag.
  - apply lint_flag.
  - intros o es ws ws'. unfold lint. simpl.
    rewrite !lintFiles_add. reflexivity.
Qed.

(** C8: the two arrays only grow at the end: each method leaves what they
    held in place ([extends]).  After a run they hold, behind what they held
    before, the diagnostics in the order of discovery: file after file in
    the order of the file list; within a file, object literal after object
    literal in the order of the traversal; within a component the warnings
    of [props], then those of [style], then those of [on]; within a
    sub-object, field after field as written. *)
Theorem diagnostics_append_only_in_discovery_order :
  (forall this d, extends this (push_error this d) /\ extends this (push_warning this d))
  /\ (forall properties filePath location this,
        extends this (validateComponentStructure properties filePath location this))
  /\ (forall this filePath, extends this (lintFile read_and_parse this filePath))
  /\ (forall this, extends this (fst (lint glob read_and_parse this)))
  /\ forall this : DOMQLLinter,
       let fileList := glob (files (options this)) (ignore (options this)) in
       errors (fst (lint glob read_and_parse this)) =
         errors this ++
         flat_map (fun filePath =>
                     match read_and_parse filePath with
                     | Throws error_message => [parse_error filePath error_message]
                     | Parsed _ => []
                     end) fileList
       /\ warnings (fst (lint glob read_and_parse this)) =
         warnings this ++
         flat_map (fun filePath =>
           match read_and_parse filePath with
           | Throws _ => []
           | Parsed ast =>
               flat_map (fun path : ObjectPath =>
                 if isDOMQLComponent (fst path) then
                   flat_map (props_field_warnings filePath (snd path))
                            (sub_object_fields "props" (fst path)) ++
                   flat_map (style_field_warnings filePath (snd path))
                            (sub_object_fields "style" (fst path)) ++
                   flat_map (on_field_warnings filePath (snd path))
                            (sub_object_fields "on" (fst path))
                 else [])
                 (object_expressions ast)
           end) fileList.
Proof.
  split; [|split; [|split; [|split]]].
  - intros this d. split.
    + rewrite push_error_add. apply extends_add_diagnostics.
    + rewrite push_warning_add. apply extends_add_diagnostics.
  - intros. rewrite validateComponentStructure_add. apply extends_add_diagnostics.
  - intros. rewrite lintFile_add. apply extends_add_diagnostics.
  - intros. rewrite lint_add. apply extends_add_diagnostics.
  - intros this fileList. rewrite lint_add. fold fileList. simpl. split.
    + f_equal.
    + f_equal. apply flat_map_ext. intros filePath.
      unfold file_warnings, tree_warnings.
      destruct (read_and_parse filePath) as [|ast]; [reflexivity|].
      apply flat_map_ext. intros [properties location]. reflexivity.
Qed.

(** C9: what a run yields depends on its input alone.  Whatever the two
    arrays hold when [lint] is called, the run appends to them exactly the
    diagnostics with which the run of a newly built linter with the same
    options ends: the same diagnostics, with the same content, in the same
    order.  In the same way the check of a component appends one sequence of
    warnings, which depends on the component, the file and the location
    alone. *)
Theorem same_input_same_diagnostics :
  (forall this : DOMQLLinter,
     let fresh := {| options := options this; errors := []; warnings := [] |} in
     errors (fst (lint glob read_and_parse this)) =
       errors this ++ errors (fst (lint glob read_and_parse fresh))
     /\ warnings (fst (lint glob read_and_parse this)) =
       warnings this ++ warnings (fst (lint glob read_and_parse fresh)))
  /\ (forall (properties : list Member) (filePath : string)
             (location : option SourceLocation.t),
        exists ws : list Diagnostic,
          forall this : DOMQLLinter,
            errors (validateComponentStructure properties filePath location this) =
              errors this
            /\ warnings (validateComponentStructure properties filePath location this) =
              warnings this ++ ws).
Proof.
  split.
  - intros this fresh. unfold fresh. rewrite !lint_add. split; reflexivity.
  - intros properties filePath location.
    exists (component_warnings filePath (properties, location)).
    intros this. rewrite validateComponentStructure_add. simpl.
    split; [apply app_nil_r | reflexivity].
Qed.

End RunClaims.

Lemma parse_failure_one_error_and_run_continues_witness :
  lintFiles sample_read_and_parse ["a.js"; "broken.js"; "c.js"] (constructor None None) =
  lintFiles sample_read_and_parse ["c.js"]
    (push_error (lintFiles sample_read_and_parse ["a.js"] (constructor None None))
       {| file := "broken.js"; line := 1; column := 1;
          message := "Parse error: Unexpected token (1:5)";
          severity := error; suggestion := None |}).
Proof.
  assert (Hthrows : sample_read_and_parse "broken.js" = Throws "Unexpected token (1:5)")
    by reflexivity.
  destruct (parse_failure_one_error_and_run_continues sample_read_and_parse
              "broken.js" "Unexpected token (1:5)" Hthrows) as [_ Hrun].
  destruct (Hrun ["a.js"] ["c.js"] (constructor None None)) as [H _].
  exact H.
Defined.

(** * More of the linter *)

(** ** The tables, one against the other *)

(** Every event-handler name starts with [on] and is in no other table. *)
Lemma event_names_only_event (n : string) :
  In n getEventHandlers ->
  has getEventHandlers n = true /\ has getStyleProperties n = false /\
  has getHTMLAttributes n = false /\ startsWith n "on" = true /\
  startsWith n "data-" = false /\ startsWith n "aria-" = false.
Proof.
  assert (Hall : forallb (fun n =>
            has getEventHandlers n && negb (has getStyleProperties n) &&
            negb (has getHTMLAttributes n) && startsWith n "on" &&
            negb (startsWith n "data-") && negb (startsWith n "aria-"))
          getEventHandlers = true) by (vm_compute; reflexivity).
  intros Hin. rewrite forallb_forall in Hall. specialize (Hall n Hin).
  repeat (apply andb_prop in Hall; destruct Hall as [Hall ?]).
  repeat match goal with H : negb _ = true |- _ => apply negb_true_iff in H end.
  auto 10.
Qed.

(** No name of the style table or of the attribute table starts with [on] or
    is one of the lower-case handler names. *)
Lemma style_and_attribute_names_no_handler (n : string) :
  In n (getStyleProperties ++ getHTMLAttributes) ->
  startsWith n "on" = false /\ has onExceptions n = false.
Proof.
  assert (Hall : forallb (fun n =>
            negb (startsWith n "on") && negb (has onExceptions n))
          (getStyleProperties ++ getHTMLAttributes) = true)
    by (vm_compute; reflexivity).
  intros Hin. rewrite forallb_forall in Hall. specialize (Hall n Hin).
  apply andb_prop in Hall. destruct Hall as [H1 H2].
  apply negb_true_iff in H1, H2. auto.
Qed.

(** X1: for every name of the event-handler table, a field with that name
    (an identifier key) inside [props] makes the linter push exactly one
    warning, "Event handler '<name>' should be in 'on' object, not 'props'"
    with the suggestion "Move '<name>' to the 'on' object"; inside [on] and
    inside [style] the same field pushes nothing. *)
Theorem event_handler_in_props_one_warning_elsewhere_none :
  forall (n : string) (field : Member),
    In n getEventHandlers ->
    member_key field = Some (Identifier n) ->
    forall (filePath : string) (location : option SourceLocation.t)
           (before after : list Member) (this : DOMQLLinter),
      let w := {| file := filePath;
                  line := warning_line field location;
                  column := warning_column field location;
                  message := "Event handler '" ++ n ++
                             "' should be in 'on' object, not 'props'";
                  severity := warning;
                  suggestion := Some ("Move '" ++ n ++ "' to the 'on' object")%string |} in
      validatePropsObject (before ++ field :: after) filePath location
        getStyleProperties getHTMLAttributes getEventHandlers this =
      validatePropsObject after filePath location
        getStyleProperties getHTMLAttributes getEventHandlers
        (push_warning
           (validatePropsObject before filePath location
              getStyleProperties getHTMLAttributes getEventHandlers this) w)
      /\ validateOnObject (before ++ field :: after) filePath location this =
         validateOnObject (before ++ after) filePath location this
      /\ validateStyleObject (before ++ field :: after) filePath location
           getHTMLAttributes this =
         validateStyleObject (before ++ after) filePath location getHTMLAttributes this.
Proof.
  intros n field Hin Hkey filePath location before after this w.
  destruct (event_names_only_event n Hin) as (He & Hs & Ha & Hon & Hd & Hr).
  repeat split.
  - unfold validatePropsObject. rewrite fold_left_middle. f_equal.
    unfold validatePropsObject_each at 1. rewrite Hkey, Hs, He, Hd, Hr. reflexivity.
  - unfold validateOnObject. rewrite fold_left_middle, fold_left_app. f_equal.
    unfold validateOnObject_each at 1. rewrite Hkey, Hon. reflexivity.
  - unfold validateStyleObject. rewrite fold_left_middle, fold_left_app. f_equal.
    unfold validateStyleObject_each at 1. rewrite Hkey, Ha, Hd, Hr. reflexivity.
Qed.

Lemma event_handler_in_props_one_warning_elsewhere_none_witness :
  validatePropsObject
    [ ObjectProperty (Identifier "onClick") false (OtherNode "ArrowFunctionExpression" [])
        (loc_at 13 4) ]
    "test-component.js" (loc_at 3 28)
    getStyleProperties getHTMLAttributes getEventHandlers (constructor None None) =
  push_warning (constructor None None)
    {| file := "test-component.js"; line := 13; column := 4;
       message := "Event handler 'onClick' should be in 'on' object, not 'props'";
       severity := warning;
       suggestion := Some "Move 'onClick' to the 'on' object" |}.
Proof.
  assert (Hin : In "onClick" getEventHandlers) by (simpl; auto).
  assert (Hkey : member_key (ObjectProperty (Identifier "onClick") false
                               (OtherNode "ArrowFunctionExpression" []) (loc_at 13 4)) =
                 Some (Identifier "onClick")) by reflexivity.
  destruct (event_handler_in_props_one_warning_elsewhere_none "onClick" _ Hin Hkey
              "test-component.js" (loc_at 3 28) [] [] (constructor None None))
    as (H & _ & _).
  exact H.
Defined.

(** X2: inside [on], a field (identifier key) whose name is in the style
    table or in the attribute table is always warned about: no such name
    starts with [on] or is one of the five lower-case handler names. *)
Theorem style_or_attribute_name_in_on_warned :
  forall (n : string) (field : Member),
    In n getStyleProperties \/ In n getHTMLAttributes ->
    member_key field = Some (Identifier n) ->
    forall (filePath : string) (location : option SourceLocation.t)
           (before after : list Member) (this : DOMQLLinter),
      validateOnObject (before ++ field :: after) filePath location this =
      validateOnObject after filePath location
        (push_warning (validateOnObject before filePath location this)
           {| file := filePath;
              line := warning_line field location;
              column := warning_column field location;
              message := "'" ++ n ++
                "' doesn't look like an event handler and should probably be in 'props'";
              severity := warning;
              suggestion := Some ("Consider moving '" ++ n ++
                                  "' to the 'props' object")%string |}).
Proof.
  intros n field Hin Hkey filePath location before after this.
  destruct (style_and_attribute_names_no_handler n) as [Hon Hex].
  { apply in_or_app. exact Hin. }
  unfold validateOnObject. rewrite fold_left_middle. f_equal.
  unfold validateOnObject_each at 1. rewrite Hkey, Hon, Hex. reflexivity.
Qed.

Lemma style_or_attribute_name_in_on_warned_witness :
  validateOnObject
    [ ObjectProperty (Identifier "className") false (StringLiteral "wrong-class")
        (loc_at 36 4) ]
    "test-component.js" (loc_at 3 28) (constructor None None) =
  push_warning (constructor None None)
    {| file := "test-component.js"; line := 36; column := 4;
       message := "'className' doesn't look like an event handler and should probably be in 'props'";
       severity := warning;
       suggestion := Some "Consider moving 'className' to the 'props' object" |}.
Proof.
  assert (Hin : In "className" getStyleProperties \/ In "className" getHTMLAttributes)
    by (right; simpl; auto).
  assert (Hkey : member_key (ObjectProperty (Identifier "className") false
                               (StringLiteral "wrong-class") (loc_at 36 4)) =
                 Some (Identifier "className")) by reflexivity.
  exact (style_or_attribute_name_in_on_warned "className" _ Hin Hkey
           "test-component.js" (loc_at 3 28) [] [] (constructor None None)).
Defined.

(** X14: for every name of the attribute table, a field with that name
    written as an identifier key inside [style] makes the linter push exactly
    one warning, "HTML attribute '<name>' should be in 'props' object, not
    'style'" with the suggestion "Move '<name>' to the 'props' object"; inside
    [props] the same field pushes nothing. *)
Theorem attribute_name_in_style_one_warning_in_props_none :
  forall (n : string) (field : Member),
    In n getHTMLAttributes ->
    member_key field = Some (Identifier n) ->
    forall (filePath : string) (location : option SourceLocation.t)
           (before after : list Member) (this : DOMQLLinter),
      validateStyleObject (before ++ field :: after) filePath location
        getHTMLAttributes this =
      validateStyleObject after filePath location getHTMLAttributes
        (push_warning
           (validateStyleObject before filePath location getHTMLAttributes this)
           {| file := filePath;
              line := warning_line field location;
              column := warning_column field location;
              message := "HTML attribute '" ++ n ++
                         "' should be in 'props' object, not 'style'";
              severity := warning;
              suggestion := Some ("Move '" ++ n ++ "' to the 'props' object")%string |})
      /\ validatePropsObject (before ++ field :: after) filePath location
           getStyleProperties getHTMLAttributes getEventHandlers this =
         validatePropsObject (before ++ after) filePath location
           getStyleProperties getHTMLAttributes getEventHandlers this.
Proof.
  intros n field Hin Hkey filePath location before after this.
  destruct (attribute_names_only_attribute n Hin) as (Ha & Hs & He).
  split.
  - unfold validateStyleObject. rewrite fold_left_middle. f_equal.
    unfold validateStyleObject_each at 1. rewrite Hkey, Ha. reflexivity.
  - unfold validatePropsObject. rewrite fold_left_middle, fold_left_app. f_equal.
    unfold validatePropsObject_each at 1. rewrite Hkey, Hs, He.
    destruct (startsWith n "data-"), (startsWith n "aria-"); reflexivity.
Qed.

Lemma attribute_name_in_style_one_warning_in_props_none_witness :
  validateStyleObject
    [ ObjectProperty (Identifier "id") false (StringLiteral "wrong-id") (loc_at 24 4) ]
    "test-component.js" (loc_at 3 28) getHTMLAttributes (constructor None None) =
  push_warning (constructor None None)
    {| file := "test-component.js"; line := 24; column := 4;
       message := "HTML attribute 'id' should be in 'props' object, not 'style'";
       severity := warning;
       suggestion := Some "Move 'id' to the 'props' object" |}.
Proof.
  assert (Hin : In "id" getHTMLAttributes) by (simpl; auto).
  assert (Hkey : member_key (ObjectProperty (Identifier "id") false
                               (StringLiteral "wrong-id") (loc_at 24 4)) =
                 Some (Identifier "id")) by reflexivity.
  destruct (attribute_name_in_style_one_warning_in_props_none "id" _ Hin Hkey
              "test-component.js" (loc_at 3 28) [] [] (constructor None None))
    as [H _].
  exact H.
Defined.

(** ** At most one warning for a field *)

Lemma props_field_warnings_length filePath location prop :
  length (props_field_warnings filePath location prop) <= 1.
Proof.
  unfold props_field_warnings.
  destruct (member_key prop) as [[n| | |]|]; try (simpl; lia).
  destruct (has getStyleProperties n) eqn:Hs;
    [|destruct (has getEventHandlers n); simpl; lia].
  apply has_true_iff, style_names_only_style in Hs.
  destruct Hs as (_ & He & _). rewrite He. simpl. lia.
Qed.

Lemma style_field_warnings_length filePath location prop :
  length (style_field_warnings filePath location prop) <= 1.
Proof.
  unfold style_field_warnings.
  destruct (member_key prop) as [[n| | |]|]; try (simpl; lia).
  destruct (has getHTMLAttributes n || startsWith n "data-" || startsWith n "aria-");
    simpl; lia.
Qed.

Lemma on_field_warnings_length filePath location prop :
  length (on_field_warnings filePath location prop) <= 1.
Proof.
  unfold on_field_warnings.
  destruct (member_key prop) as [[n| | |]|]; try (simpl; lia).
  destruct (negb (startsWith n "on") && negb (has onExceptions n)); simpl; lia.
Qed.

Lemma flat_map_length_le {A B : Type} (f : A -> list B) (l : list A) :
  (forall a, length (f a) <= 1) -> length (flat_map f l) <= length l.
Proof.
  intros Hf. induction l as [|a l IH]; simpl; [lia|].
  rewrite length_app. specialize (Hf a). lia.
Qed.

(** X3: no field gets two warnings.  A round of any of the three loops adds
    at most one warning (the style table and the event-handler table share no
    name, so the two tests of the [props] loop never both fire), each check
    adds at most as many warnings as the sub-object has members, and a
    component gets at most as many warnings as its three sub-objects have
    members in all; no check touches the errors. *)
Theorem at_most_one_warning_per_field :
  forall (filePath : string) (location : option SourceLocation.t) (this : DOMQLLinter),
    (forall field : Member,
       length (warnings (validatePropsObject_each filePath location
                 getStyleProperties getHTMLAttributes getEventHandlers this field))
         <= S (length (warnings this))
       /\ length (warnings (validateStyleObject_each filePath location
                    getHTMLAttributes this field))
         <= S (length (warnings this))
       /\ length (warnings (validateOnObject_each filePath location this field))
         <= S (length (warnings this)))
    /\ (forall fields : list Member,
          length (warnings (validatePropsObject fields filePath location
                    getStyleProperties getHTMLAttributes getEventHandlers this))
            <= length (warnings this) + length fields
          /\ length (warnings (validateStyleObject fields filePath location
                       getHTMLAttributes this))
            <= length (warnings this) + length fields
          /\ length (warnings (validateOnObject fields filePath location this))
            <= length (warnings this) + length fields)
    /\ (forall properties : list Member,
          length (warnings (validateComponentStructure properties filePath location this))
            <= length (warnings this)
               + length (sub_object_fields "props" properties)
               + length (sub_object_fields "style" properties)
               + length (sub_object_fields "on" properties)
          /\ errors (validateComponentStructure properties filePath location this) =
             errors this).
Proof.
  intros filePath location this.
  split; [|split].
  - intros field.
    rewrite validatePropsObject_each_add, validateStyleObject_each_add,
            validateOnObject_each_add.
    simpl. rewrite !length_app.
    pose proof (props_field_warnings_length filePath location field).
    pose proof (style_field_warnings_length filePath location field).
    pose proof (on_field_warnings_length filePath location field).
    lia.
  - intros fields.
    rewrite validatePropsObject_add, validateStyleObject_add, validateOnObject_add.
    simpl. rewrite !length_app.
    pose proof (flat_map_length_le (props_field_warnings filePath location) fields
                  (props_field_warnings_length filePath location)).
    pose proof (flat_map_length_le (style_field_warnings filePath location) fields
                  (style_field_warnings_length filePath location)).
    pose proof (flat_map_length_le (on_field_warnings filePath location) fields
                  (on_field_warnings_length filePath location)).
    lia.
  - intros properties. rewrite validateComponentStructure_add. simpl.
    split; [|apply app_nil_r].
    rewrite !length_app.
    pose proof (flat_map_length_le (props_field_warnings filePath location)
                  (sub_object_fields "props" properties)
                  (props_field_warnings_length filePath location)).
    pose proof (flat_map_length_le (style_field_warnings filePath location)
                  (sub_object_fields "style" properties)
                  (style_field_warnings_length filePath location)).
    pose proof (flat_map_length_le (on_field_warnings filePath location)
                  (sub_object_fields "on" properties)
                  (on_field_warnings_length filePath location)).
    lia.
Qed.

(** ** Which member is the sub-object *)

(** X4: when several members of a component have the key [props] (or
    [style], or [on]), the check looks at the first of them only.  If the
    value of that first member is an object literal, its fields are checked;
    if it is anything else (or the member is a method), the check is skipped,
    whatever the members after it are. *)
Theorem only_first_keyed_member_is_checked :
  forall (name : string) (before : list Member) (first : Member) (rest : list Member),
    Forall (fun m => member_key m <> Some (Identifier name)) before ->
    member_key first = Some (Identifier name) ->
    sub_object name (before ++ first :: rest) =
    match member_value first with
    | Some (ObjectExpression fields _) => Some fields
    | _ => None
    end.
Proof.
  intros name before first rest Hbefore Hfirst.
  unfold sub_object. now rewrite (find_key_named_first name before first rest).
Qed.

Lemma only_first_keyed_member_is_checked_witness :
  sub_object "props"
    [ ObjectProperty (Identifier "extend") false (StringLiteral "div") (loc_at 2 2);
      ObjectProperty (Identifier "props") false (Identifier "sharedProps") (loc_at 3 2);
      ObjectProperty (Identifier "props") false
        (ObjectExpression [ width_field ] (loc_at 4 9)) (loc_at 4 2) ] = None.
Proof.
  assert (Hbefore : Forall (fun m => member_key m <> Some (Identifier "props"))
                      [ ObjectProperty (Identifier "extend") false (StringLiteral "div")
                          (loc_at 2 2) ]).
  { constructor; [simpl; discriminate | constructor]. }
  assert (Hfirst : member_key (ObjectProperty (Identifier "props") false
                                 (Identifier "sharedProps") (loc_at 3 2)) =
                   Some (Identifier "props")) by reflexivity.
  exact (only_first_keyed_member_is_checked "props" _ _
           [ ObjectProperty (Identifier "props") false
               (ObjectExpression [ width_field ] (loc_at 4 9)) (loc_at 4 2) ]
           Hbefore Hfirst).
Defined.

(** ** Positions *)

Lemma field_warnings_position (filePath : string) (location : option SourceLocation.t)
    (field : Member) (d : Diagnostic) :
  In d (props_field_warnings filePath location field) \/
  In d (style_field_warnings filePath location field) \/
  In d (on_field_warnings filePath location field) ->
  line d = warning_line field location /\ column d = warning_column field location.
Proof.
  unfold props_field_warnings, style_field_warnings, on_field_warnings.
  destruct (member_key field) as [[n| | |]|]; try (intros [[]|[[]|[]]]).
  intros [H | [H | H]].
  - destruct (has getStyleProperties n), (has getEventHandlers n); simpl in H;
      repeat (destruct H as [<- | H]; [split; reflexivity|]); destruct H.
  - destruct (has getHTMLAttributes n || startsWith n "data-" || startsWith n "aria-");
      simpl in H; repeat (destruct H as [<- | H]; [split; reflexivity|]); destruct H.
  - destruct (negb (startsWith n "on") && negb (has onExceptions n));
      simpl in H; repeat (destruct H as [<- | H]; [split; reflexivity|]); destruct H.
Qed.

(** X5: a field that starts at a line and a column other than 0 is reported
    at its own position: every warning that a round of one of the three loops
    adds for it carries that line and that column, whatever the location of
    the enclosing component is (even none). *)
Theorem field_with_nonzero_position_reported_there :
  forall (field : Member) (l c : nat),
    start_line (member_loc field) = Some (S l) ->
    start_column (member_loc field) = Some (S c) ->
    forall (filePath : string) (location : option SourceLocation.t)
           (this : DOMQLLinter) (d : Diagnostic),
      In d (warnings (validatePropsObject_each filePath location
              getStyleProperties getHTMLAttributes getEventHandlers this field))
      \/ In d (warnings (validateStyleObject_each filePath location
                 getHTMLAttributes this field))
      \/ In d (warnings (validateOnObject_each filePath location this field)) ->
      In d (warnings this) \/ (line d = S l /\ column d = S c).
Proof.
  intros field l c Hl Hc filePath location this d.
  rewrite validatePropsObject_each_add, validateStyleObject_each_add,
          validateOnObject_each_add.
  simpl. rewrite !in_app_iff.
  assert (Hpos : warning_line field location = S l /\
                 warning_column field location = S c).
  { unfold warning_line, warning_column. rewrite Hl, Hc. split; reflexivity. }
  destruct Hpos as [Hline Hcol].
  intros [[H | H] | [[H | H] | [H | H]]]; auto; right; rewrite <- Hline, <- Hcol;
    apply (field_warnings_position filePath location field d); auto.
Qed.

Lemma field_with_nonzero_position_reported_there_witness :
  let d := {| file := "components.js"; line := 2; column := 4;
              message := "Style property 'width' should be in 'style' object, not 'props'";
              severity := warning;
              suggestion := Some "Move 'width' to the 'style' object" |} in
  In d (warnings (validatePropsObject_each "components.js" (loc_at 1 10)
          getStyleProperties getHTMLAttributes getEventHandlers
          (constructor None None) width_field))
  /\ (In d (warnings (constructor None None)) \/ (line d = 2 /\ column d = 4)).
Proof.
  intros d.
  assert (Hl : start_line (member_loc width_field) = Some 2) by reflexivity.
  assert (Hc : start_column (member_loc width_field) = Some 4) by reflexivity.
  assert (Hin : In d (warnings (validatePropsObject_each "components.js" (loc_at 1 10)
                        getStyleProperties getHTMLAttributes getEventHandlers
                        (constructor None None) width_field)))
    by (simpl; left; reflexivity).
  split; [exact Hin|].
  exact (field_with_nonzero_position_reported_there width_field 1 3 Hl Hc
           "components.js" (loc_at 1 10) (constructor None None) d (or_introl Hin)).
Defined.

(** ** What the arrays hold after a run *)

Lemma Forall_flat_map_in {A B : Type} (P : B -> Prop) (f : A -> list B) (l : list A) :
  (forall a, In a l -> Forall P (f a)) -> Forall P (flat_map f l).
Proof.
  intros Hf. induction l as [|a l IH]; simpl; [constructor|].
  apply Forall_app. split.
  - apply Hf. now left.
  - apply IH. intros b Hb. apply Hf. now right.
Qed.

Lemma js_or_default_positive (a : option nat) : 1 <= js_or_default a 1.
Proof.
  destruct a as [[|n]|]; simpl; lia.
Qed.

Lemma well_formed_style_in_props filePath prop location n :
  well_formed_warning filePath (style_in_props_warning filePath prop location n).
Proof.
  repeat split; simpl; try apply js_or_default_positive; eauto.
Qed.

Lemma well_formed_event_in_props filePath prop location n :
  well_formed_warning filePath (event_in_props_warning filePath prop location n).
Proof.
  repeat split; simpl; try apply js_or_default_positive; eauto.
Qed.

Lemma well_formed_attribute_in_style filePath prop location n :
  well_formed_warning filePath (attribute_in_style_warning filePath prop location n).
Proof.
  repeat split; simpl; try apply js_or_default_positive; eauto.
Qed.

Lemma well_formed_not_a_handler filePath prop location n :
  well_formed_warning filePath (not_a_handler_warning filePath prop location n).
Proof.
  repeat split; simpl; try apply js_or_default_positive; eauto.
Qed.

Lemma tree_warnings_well_formed filePath ast :
  Forall (well_formed_warning filePath) (tree_warnings filePath ast).
Proof.
  unfold tree_warnings. apply Forall_flat_map. intros [properties location].
  unfold object_warnings; simpl. destruct (isDOMQLComponent properties); [|constructor].
  unfold component_warnings. rewrite !Forall_app. repeat split; apply Forall_flat_map;
    intros prop.
  - unfold props_field_warnings.
    destruct (member_key prop) as [[n| | |]|]; try constructor.
    apply Forall_app. split.
    + destruct (has getStyleProperties n); [|constructor].
      constructor; [apply well_formed_style_in_props | constructor].
    + destruct (has getEventHandlers n); [|constructor].
      constructor; [apply well_formed_event_in_props | constructor].
  - unfold style_field_warnings.
    destruct (member_key prop) as [[n| | |]|]; try constructor.
    destruct (has getHTMLAttributes n || startsWith n "data-" || startsWith n "aria-");
      [|constructor].
    constructor; [apply well_formed_attribute_in_style | constructor].
  - unfold on_field_warnings.
    destruct (member_key prop) as [[n| | |]|]; try constructor.
    destruct (negb (startsWith n "on") && negb (has onExceptions n)); [|constructor].
    constructor; [apply well_formed_not_a_handler | constructor].
Qed.

Section MoreRunFacts.

Variable glob : list string -> list string -> list string.
Variable read_and_parse : string -> ParseOutcome.

Lemma run_warnings_well_formed (this : DOMQLLinter) :
  warnings this = [] ->
  Forall (fun w => In (file w) (glob (files (options this)) (ignore (options this))) /\
                   well_formed_warning (file w) w /\
                   exists ast, read_and_parse (file w) = Parsed ast)
         (warnings (fst (lint glob read_and_parse this))).
Proof.
  intros Hnil. rewrite lint_add. simpl. rewrite Hnil. simpl.
  apply Forall_flat_map_in. intros filePath Hin. unfold file_warnings.
  destruct (read_and_parse filePath) as [m | ast] eqn:Hrp; [constructor|].
  eapply Forall_impl; [|apply tree_warnings_well_formed].
  intros d Hd. pose proof Hd as (Hfile & _). rewrite Hfile.
  repeat split; eauto; apply Hd.
Qed.

(** X6: after the run of a newly built linter every diagnostic names a file
    of the list that the pattern expansion gave.  Every entry of the errors is
    the entry that the [catch] of [lintFile] pushes for a file whose [try]
    block threw (while reading, parsing or preparing the traversal): line 1,
    column 1, severity error, the message "Parse error: " followed by the
    message of the exception, no suggestion.  Every entry of the warnings
    belongs to a file whose [try] block ran to its end, has severity warning,
    a line and a column of at least 1 (never 0) and a suggestion that is not
    empty. *)
Theorem run_diagnostics_well_formed :
  forall files_opt ignore_opt : option (list string),
    let this := constructor files_opt ignore_opt in
    let fileList := glob (files (options this)) (ignore (options this)) in
    let finished := fst (lint glob read_and_parse this) in
    Forall (fun e =>
              In (file e) fileList /\ line e = 1 /\ column e = 1 /\
              severity e = error /\ suggestion e = None /\
              exists m, read_and_parse (file e) = Throws m /\
                        message e = ("Parse error: " ++ m)%string)
           (errors finished)
    /\ Forall (fun w =>
                 In (file w) fileList /\ 1 <= line w /\ 1 <= column w /\
                 severity w = warning /\
                 (exists c s, suggestion w = Some (String c s)) /\
                 exists ast, read_and_parse (file w) = Parsed ast)
              (warnings finished).
Proof.
  intros files_opt ignore_opt this fileList finished. split.
  - unfold finished. rewrite lint_add. fold fileList. simpl.
    apply Forall_flat_map_in. intros filePath Hin. unfold file_errors.
    destruct (read_and_parse filePath) as [m | ast] eqn:Hrp; constructor; [|constructor].
    simpl. rewrite Hrp. repeat split; eauto.
  - eapply Forall_impl; [|apply (run_warnings_well_formed this); reflexivity].
    intros w (Hin & (_ & Hl & Hc & Hs & Hsug) & Hast). repeat split; auto.
Qed.

(** X7: [lint] does not empty the two arrays.  Called a second time on the
    same linter, with the files unchanged, it appends the diagnostics of the
    first run once more: each array then holds its sequence twice, and the
    flag of the second call is that of the first. *)
Theorem second_run_on_same_linter_doubles :
  forall files_opt ignore_opt : option (list string),
    let first := lint glob read_and_parse (constructor files_opt ignore_opt) in
    let second := lint glob read_and_parse (fst first) in
    errors (fst second) = errors (fst first) ++ errors (fst first)
    /\ warnings (fst second) = warnings (fst first) ++ warnings (fst first)
    /\ snd second = snd first.
Proof.
  intros files_opt ignore_opt first second.
  assert (Hfirst : fst first =
            add_diagnostics (constructor files_opt ignore_opt)
              (flat_map (file_errors read_and_parse)
                 (glob (files (options (constructor files_opt ignore_opt)))
                       (ignore (options (constructor files_opt ignore_opt)))))
              (flat_map (file_warnings read_and_parse)
                 (glob (files (options (constructor files_opt ignore_opt)))
                       (ignore (options (constructor files_opt ignore_opt))))))
    by apply lint_add.
  assert (Hsecond : fst second =
            add_diagnostics (fst first)
              (flat_map (file_errors read_and_parse)
                 (glob (files (options (fst first))) (ignore (options (fst first)))))
              (flat_map (file_warnings read_and_parse)
                 (glob (files (options (fst first))) (ignore (options (fst first))))))
    by apply lint_add.
  split; [|split].
  - rewrite Hsecond, Hfirst. reflexivity.
  - rewrite Hsecond, Hfirst. reflexivity.
  - unfold second, first, lint. cbn [fst snd].
    rewrite !lintFiles_add. cbn [errors options add_diagnostics constructor app].
    rewrite length_app.
    destruct (flat_map (file_errors read_and_parse) (glob _ _)); reflexivity.
Qed.

End MoreRunFacts.

(** ** The report *)

Section ReportFacts.

Variable icon : Icon -> string.

Lemma report_error_colours (ds : list Diagnostic) :
  Forall (fun l => colour l = Red) (flat_map (report_error icon) ds)
  /\ length (flat_map (report_error icon) ds) = 2 * length ds.
Proof.
  induction ds as [|d ds [IH1 IH2]]; simpl.
  - split; [constructor | reflexivity].
  - split; [|rewrite IH2; lia].
    constructor; [reflexivity|]. constructor; [reflexivity | exact IH1].
Qed.

Lemma report_warning_colours (ds : list Diagnostic) :
  Forall (fun l => colour l = Yellow \/ colour l = Gray \/ colour l = NoColour)
         (flat_map (report_warning icon) ds)
  /\ length (flat_map (report_warning icon) ds) = 3 * length ds.
Proof.
  induction ds as [|d ds [IH1 IH2]]; simpl.
  - split; [constructor | reflexivity].
  - split; [|rewrite IH2; lia].
    constructor; [now left|]. constructor; [now left|]. constructor; [|exact IH1].
    destruct (suggestion d) as [[|c s]|]; simpl; auto.
Qed.

Lemma both_empty_test (this : DOMQLLinter) :
  Nat.eqb (length (errors this)) 0 && Nat.eqb (length (warnings this)) 0 = true <->
  errors this = [] /\ warnings this = [].
Proof.
  rewrite andb_true_iff, !Nat.eqb_eq, !length_zero_iff_nil. reflexivity.
Qed.

(** X8: the report says "No issues found!" if and only if both arrays are
    empty, and then it is that line after the heading and nothing else (no
    summary).  Otherwise the report is the heading, two red lines for every
    error, then three lines for every warning, then the summary with the two
    counts: all errors come before all warnings, whatever the order in which
    the run found them. *)
Theorem report_no_issues_or_errors_then_warnings :
  forall this : DOMQLLinter,
    let heading := mkLog Blue (icon icon_results ++ " Linting Results:" ++ nl) in
    let no_issues := mkLog Green (icon icon_no_issues ++ " No issues found!") in
    let summary :=
      mkLog Blue (nl ++ icon icon_summary ++ " Summary: " ++
                  number (length (errors this)) ++ " errors, " ++
                  number (length (warnings this)) ++ " warnings") in
    (In no_issues (reportResults icon this) <-> errors this = [] /\ warnings this = [])
    /\ (errors this = [] /\ warnings this = [] ->
        reportResults icon this = [ heading; no_issues ])
    /\ (~ (errors this = [] /\ warnings this = []) ->
        exists about_errors about_warnings : list Log,
          reportResults icon this =
            heading :: about_errors ++ about_warnings ++ [ summary ]
          /\ length about_errors = 2 * length (errors this)
          /\ Forall (fun l => colour l = Red) about_errors
          /\ length about_warnings = 3 * length (warnings this)
          /\ Forall (fun l => colour l <> Red /\ colour l <> Blue /\ colour l <> Green)
                    about_warnings).
Proof.
  intros this heading no_issues summary.
  assert (Hempty : errors this = [] /\ warnings this = [] ->
                   reportResults icon this = [ heading; no_issues ]).
  { intros H. apply both_empty_test in H. unfold reportResults. now rewrite H. }
  assert (Hfull : ~ (errors this = [] /\ warnings this = []) ->
                  reportResults icon this =
                  heading :: flat_map (report_error icon) (errors this) ++
                             flat_map (report_warning icon) (warnings this) ++
                             [ summary ]).
  { intros H. unfold reportResults.
    destruct (Nat.eqb (length (errors this)) 0 && Nat.eqb (length (warnings this)) 0)
      eqn:Htest; [|reflexivity].
    apply both_empty_test in Htest. contradiction. }
  destruct (report_error_colours (errors this)) as [Hred Hnred].
  destruct (report_warning_colours (warnings this)) as [Hyellow Hnyellow].
  split; [|split].
  - split.
    + intros Hin.
      destruct (Nat.eqb (length (errors this)) 0 && Nat.eqb (length (warnings this)) 0)
        eqn:Htest; [now apply both_empty_test|].
      exfalso.
      assert (Hnot : ~ (errors this = [] /\ warnings this = [])).
      { intros H. apply both_empty_test in H. congruence. }
      rewrite (Hfull Hnot) in Hin.
      destruct Hin as [Hin | Hin]; [discriminate Hin|].
      rewrite !in_app_iff in Hin. destruct Hin as [Hin | [Hin | [Hin | []]]].
      * rewrite Forall_forall in Hred. apply Hred in Hin. discriminate Hin.
      * rewrite Forall_forall in Hyellow. apply Hyellow in Hin.
        destruct Hin as [Hin | [Hin | Hin]]; discriminate Hin.
      * discriminate Hin.
    + intros H. rewrite (Hempty H). right. now left.
  - exact Hempty.
  - intros Hnot.
    exists (flat_map (report_error icon) (errors this)),
           (flat_map (report_warning icon) (warnings this)).
    repeat split; auto.
    eapply Forall_impl; [|exact Hyellow].
    intros l [H | [H | H]]; rewrite H; repeat split; discriminate.
Qed.

Variable glob : list string -> list string -> list string.
Variable read_and_parse : string -> ParseOutcome.

Lemma report_warning_with_suggestion (ds : list Diagnostic) :
  Forall (fun d => exists c s, suggestion d = Some (String c s)) ds ->
  Forall (fun l => colour l <> NoColour) (flat_map (report_warning icon) ds)
  /\ length (filter (fun l => match colour l with Gray => true | _ => false end)
                    (flat_map (report_warning icon) ds)) = length ds.
Proof.
  induction 1 as [|d ds (c & s & Hd) _ [IH1 IH2]]; simpl.
  - split; [constructor | reflexivity].
  - rewrite Hd. split.
    + repeat (constructor; [simpl; discriminate|]). exact IH1.
    + simpl. now rewrite IH2.
Qed.

(** X9: in what a run of a newly built linter writes on the console, the
    empty line of the branch [console.log()] never occurs: every warning of
    a run has a suggestion, so the report prints, for every warning, its gray
    suggestion line: as many as there are warnings. *)
Theorem run_report_has_every_suggestion :
  forall files_opt ignore_opt : option (list string),
    let this := constructor files_opt ignore_opt in
    let finished := fst (lint glob read_and_parse this) in
    Forall (fun l => colour l <> NoColour) (lint_console icon glob read_and_parse this)
    /\ length (filter (fun l => match colour l with Gray => true | _ => false end)
                      (reportResults icon finished)) =
       length (warnings finished).
Proof.
  intros files_opt ignore_opt this finished.
  assert (Hws : Forall (fun d => exists c s, suggestion d = Some (String c s))
                       (warnings finished)).
  { eapply Forall_impl;
      [|apply (run_warnings_well_formed glob read_and_parse this); reflexivity].
    intros d (_ & (_ & _ & _ & _ & Hs) & _). exact Hs. }
  destruct (report_warning_with_suggestion (warnings finished) Hws) as [Hcol Hgray].
  destruct (report_error_colours (errors finished)) as [Hred _].
  assert (Hno_gray : filter (fun l => match colour l with Gray => true | _ => false end)
                       (flat_map (report_error icon) (errors finished)) = []).
  { clear -Hred. induction Hred as [|l ls Hl _ IH]; simpl; [reflexivity|].
    now rewrite Hl. }
  unfold lint_console. fold this. fold finished. unfold reportResults.
  destruct (Nat.eqb (length (errors finished)) 0 &&
            Nat.eqb (length (warnings finished)) 0) eqn:Htest.
  - apply both_empty_test in Htest. destruct Htest as [_ Hw]. rewrite Hw.
    split; [|reflexivity].
    repeat (constructor; [simpl; discriminate|]). constructor.
  - split.
    + repeat (constructor; [simpl; discriminate|]).
      rewrite !Forall_app. repeat split.
      * eapply Forall_impl; [|exact Hred]. intros l Hl. rewrite Hl. discriminate.
      * exact Hcol.
      * repeat constructor. simpl. discriminate.
    + cbn [filter colour]. rewrite !filter_app, Hno_gray. cbn [app].
      rewrite length_app, Hgray. simpl. lia.
Qed.

End ReportFacts.

(** ** The command line *)

Lemma split_commas_not_nil (s : string) : split_commas s <> [].
Proof.
  destruct s as [|c s]; simpl; [discriminate|].
  destruct (Ascii.eqb c ","); [discriminate|].
  destruct (split_commas s); discriminate.
Qed.

Lemma join_commas_cons_char (c : ascii) (piece : string) (pieces : list string) :
  join_commas (String c piece :: pieces) = String c (join_commas (piece :: pieces)).
Proof.
  destruct pieces; reflexivity.
Qed.

(** X10: [split(',')] on the value of a flag loses nothing: the pieces,
    joined with commas again, give the value back; there is always at least
    one piece, no piece holds a comma, and there is one piece more than the
    value has commas (two commas in a row, or a comma at either end, give
    empty pieces). *)
Theorem split_commas_join_round_trip :
  forall s : string,
    join_commas (split_commas s) = s
    /\ split_commas s <> []
    /\ Forall (fun piece => ~ In ","%char (list_ascii_of_string piece)) (split_commas s)
    /\ length (split_commas s) =
       S (length (filter (Ascii.eqb ",") (list_ascii_of_string s))).
Proof.
  induction s as [|c s (Hjoin & Hnil & Hfree & Hlen)].
  - simpl. split; [reflexivity|]. split; [discriminate|]. split; [|reflexivity].
    constructor; [simpl; tauto | constructor].
  - cbn [split_commas list_ascii_of_string filter].
    destruct (split_commas s) as [|p ps]; [contradiction|].
    destruct (Ascii.eqb c ",") eqn:Hc.
    + apply Ascii.eqb_eq in Hc. subst c. rewrite Ascii.eqb_refl.
      split; [|split; [|split]].
      * change (join_commas ("" :: p :: ps)) with (String "," (join_commas (p :: ps))).
        now rewrite Hjoin.
      * discriminate.
      * constructor; [simpl; tauto | exact Hfree].
      * cbn [length] in *. now rewrite Hlen.
    + rewrite Ascii.eqb_sym, Hc.
      split; [|split; [|split]].
      * rewrite join_commas_cons_char, Hjoin. reflexivity.
      * discriminate.
      * inversion Hfree as [|? ? Hp Hps]; subst. constructor; [|exact Hps].
        simpl. intros [Heq | Hin]; [|contradiction].
        subst c. now rewrite Ascii.eqb_refl in Hc.
      * exact Hlen.
Qed.

Lemma parse_args_no_flag (args : list string) (options : CliOptions) :
  ~ In "--files" args -> ~ In "--ignore" args -> parse_args args options = options.
Proof.
  induction args as [|arg rest IH]; intros Hf Hi; [reflexivity|].
  assert (Hrest : parse_args rest options = options).
  { apply IH; intros H; [apply Hf | apply Hi]; now right. }
  cbn [parse_args].
  destruct (String.eqb arg "--files") eqn:Ef.
  { apply String.eqb_eq in Ef. exfalso. apply Hf. now left. }
  destruct (String.eqb arg "--ignore") eqn:Ei.
  { apply String.eqb_eq in Ei. exfalso. apply Hi. now left. }
  destruct rest as [|[|c v] rest']; exact Hrest.
Qed.

(** Where the options after the loop come from: an option is as it was
    before the loop, or it is the split of an argument that is not empty. *)
Lemma parse_args_provenance (n : nat) :
  forall (args : list string) (options : CliOptions),
    length args <= n ->
    (cli_files (parse_args args options) = cli_files options \/
     exists v, In v args /\ v <> "" /\
               cli_files (parse_args args options) = Some (split_commas v))
    /\ (cli_ignore (parse_args args options) = cli_ignore options \/
        exists v, In v args /\ v <> "" /\
                  cli_ignore (parse_args args options) = Some (split_commas v)).
Proof.
  induction n as [|n IH]; intros args options Hlen.
  - destruct args; [simpl; auto | simpl in Hlen; lia].
  - destruct args as [|arg rest]; [simpl; auto|].
    simpl in Hlen.
    assert (Hone : forall o,
              (cli_files (parse_args rest o) = cli_files o \/
               exists v, In v (arg :: rest) /\ v <> "" /\
                         cli_files (parse_args rest o) = Some (split_commas v))
              /\ (cli_ignore (parse_args rest o) = cli_ignore o \/
                  exists v, In v (arg :: rest) /\ v <> "" /\
                            cli_ignore (parse_args rest o) = Some (split_commas v))).
    { intros o. destruct (IH rest o ltac:(lia)) as [[Hf | (v & Hv & Hne & Hf)]
                                                    [Hi | (v' & Hv' & Hne' & Hi)]];
        split; auto; right; eauto using in_cons. }
    cbn [parse_args].
    destruct rest as [|[|c v] rest']; try apply Hone.
    assert (Hv : In (String c v) (arg :: String c v :: rest')) by (right; now left).
    assert (Hne : String c v <> "") by discriminate.
    simpl in Hlen.
    destruct (String.eqb arg "--files").
    + destruct (IH rest' {| cli_files := Some (split_commas (String c v));
                            cli_ignore := cli_ignore options |} ltac:(lia))
        as [[Hf | (w & Hw & Hwne & Hf)] [Hi | (w' & Hw' & Hwne' & Hi)]];
        simpl in *; split; eauto 7 using in_cons.
    + destruct (String.eqb arg "--ignore"); [|apply Hone].
      destruct (IH rest' {| cli_files := cli_files options;
                            cli_ignore := Some (split_commas (String c v)) |}
                  ltac:(lia))
        as [[Hf | (w & Hw & Hwne & Hf)] [Hi | (w' & Hw' & Hwne' & Hi)]];
        simpl in *; split; eauto 7 using in_cons.
Qed.

Section CommandLineFacts.

Variable glob : list string -> list string -> list string.
Variable read_and_parse : string -> ParseOutcome.

(** X11: arguments other than the two flags have no effect.  When neither
    [--files] nor [--ignore] is among the arguments, the loop leaves the
    options as they are, and the command does what it does without any
    argument: it lints the default patterns with the default ignore list.
    File names given as plain arguments are not linted for themselves. *)
Theorem plain_arguments_are_ignored :
  forall args : list string,
    ~ In "--files" args ->
    ~ In "--ignore" args ->
    (forall options, parse_args args options = options)
    /\ cli glob read_and_parse args = cli glob read_and_parse []
    /\ options (fst (cli glob read_and_parse args)) =
       {| files := ["**/*.js"; "**/*.jsx"; "**/*.ts"; "**/*.tsx"];
          ignore := ["node_modules/**"; "dist/**"] |}.
Proof.
  intros args Hf Hi.
  assert (Hparse : forall options, parse_args args options = options)
    by (intros; now apply parse_args_no_flag).
  split; [exact Hparse|].
  assert (Hcli : cli glob read_and_parse args = cli glob read_and_parse []).
  { unfold cli. now rewrite Hparse. }
  split; [exact Hcli|].
  rewrite Hcli. unfold cli. cbn [parse_args no_options cli_files cli_ignore].
  rewrite (surjective_pairing (lint glob read_and_parse (constructor None None))).
  cbn [fst]. rewrite lint_add. reflexivity.
Qed.

(** X12: the patterns that the command hands to the pattern expansion are
    never an empty list.  The file patterns are the default ones or the
    comma-separated pieces of one of the arguments, an argument that is not
    empty; so are the ignore patterns. *)
Theorem cli_patterns_default_or_split_argument :
  forall args : list string,
    let linter := fst (cli glob read_and_parse args) in
    (files (options linter) = ["**/*.js"; "**/*.jsx"; "**/*.ts"; "**/*.tsx"] \/
     exists v, In v args /\ v <> "" /\ files (options linter) = split_commas v)
    /\ (ignore (options linter) = ["node_modules/**"; "dist/**"] \/
        exists v, In v args /\ v <> "" /\ ignore (options linter) = split_commas v)
    /\ files (options linter) <> []
    /\ ignore (options linter) <> [].
Proof.
  intros args linter.
  assert (Hopts : options linter =
            options (constructor (cli_files (parse_args args no_options))
                                 (cli_ignore (parse_args args no_options)))).
  { unfold linter, cli.
    rewrite (surjective_pairing (lint glob read_and_parse _)).
    cbn [fst]. rewrite lint_add. reflexivity. }
  rewrite Hopts. cbn [constructor options files ignore].
  destruct (parse_args_provenance (length args) args no_options (le_n _))
    as [[Hf | (v & Hv & Hne & Hf)] [Hi | (v' & Hv' & Hne' & Hi)]];
    rewrite Hf, Hi; cbn [no_options cli_files cli_ignore];
    repeat split; eauto; try discriminate; apply split_commas_not_nil.
Qed.

(** X13: the exit code of the command is 0 when, for every file that the
    pattern expansion gives, the [try] block of [lintFile] runs to its end
    (nothing throws while the file is read, parsed and traversed), and 1 when
    it throws for one of them; equally, it is 0 exactly when the errors array
    is empty.  Warnings never change it. *)
Theorem cli_exit_code :
  forall args : list string,
    let parsed := parse_args args no_options in
    let linter := constructor (cli_files parsed) (cli_ignore parsed) in
    let fileList := glob (files (options linter)) (ignore (options linter)) in
    (snd (cli glob read_and_parse args) = 0 <->
     forall filePath, In filePath fileList ->
       exists ast, read_and_parse filePath = Parsed ast)
    /\ (snd (cli glob read_and_parse args) = 1 <->
        exists filePath m, In filePath fileList /\ read_and_parse filePath = Throws m)
    /\ (snd (cli glob read_and_parse args) = 0 <->
        errors (fst (cli glob read_and_parse args)) = []).
Proof.
  intros args parsed linter fileList.
  assert (Hcli : cli glob read_and_parse args =
                 (fst (lint glob read_and_parse linter),
                  if snd (lint glob read_and_parse linter) then 0 else 1)).
  { unfold cli. fold parsed. fold linter.
    now rewrite (surjective_pairing (lint glob read_and_parse linter)). }
  rewrite Hcli. cbn [fst snd].
  pose proof (lint_flag glob read_and_parse linter) as Hflag.
  assert (Herr : errors (fst (lint glob read_and_parse linter)) =
                 flat_map (file_errors read_and_parse) fileList).
  { rewrite lint_add. reflexivity. }
  assert (Hzero : (if snd (lint glob read_and_parse linter) then 0 else 1) = 0 <->
                  errors (fst (lint glob read_and_parse linter)) = []).
  { rewrite <- Hflag. destruct (snd (lint glob read_and_parse linter));
      split; congruence. }
  split; [|split].
  - rewrite Hzero, Herr. apply no_file_errors_iff.
  - split.
    + intros H.
      assert (Hne : flat_map (file_errors read_and_parse) fileList <> []).
      { rewrite <- Herr. intros Hnil. apply Hzero in Hnil. rewrite Hnil in H.
        discriminate H. }
      clear -Hne. induction fileList as [|f fl IH]; [contradiction|].
      simpl in Hne. unfold file_errors at 1 in Hne.
      destruct (read_and_parse f) as [m | ast] eqn:Hrp.
      * exists f, m. split; [now left | exact Hrp].
      * destruct (IH Hne) as (g & m & Hg & Hm). exists g, m. split; [now right | exact Hm].
    + intros (f & m & Hin & Hrp).
      destruct (snd (lint glob read_and_parse linter)) eqn:Hs; [|reflexivity].
      exfalso. assert (Hnil : errors (fst (lint glob read_and_parse linter)) = [])
        by now apply Hflag.
      rewrite Herr in Hnil. apply no_file_errors_iff with (filePath := f) in Hnil;
        [|exact Hin].
      destruct Hnil as [ast Hast]. congruence.
  - exact Hzero.
Qed.

End CommandLineFacts.

Lemma plain_arguments_are_ignored_witness :
  cli (fun _ _ => ["a.js"; "broken.js"; "c.js"]) sample_read_and_parse
      ["src/components.js"; "src/pages.js"] =
  cli (fun _ _ => ["a.js"; "broken.js"; "c.js"]) sample_read_and_parse [].
Proof.
  assert (Hf : ~ In "--files" ["src/components.js"; "src/pages.js"])
    by (simpl; intros [H | [H | []]]; discriminate H).
  assert (Hi : ~ In "--ignore" ["src/components.js"; "src/pages.js"])
    by (simpl; intros [H | [H | []]]; discriminate H).
  destruct (plain_arguments_are_ignored (fun _ _ => ["a.js"; "broken.js"; "c.js"])
              sample_read_and_parse ["src/components.js"; "src/pages.js"] Hf Hi)
    as (_ & H & _).
  exact H.
Defined.
